(** * API URL status monitor: the monitoring core of [api_monitor.py]
    and [cli_monitor.py], embedded as pure functions over an explicit
    monitor state.

  Conventions of the embedding:
  - Python [int] is [Z] ([nat] where the value is a [len]), [str] is
    [string], [None]-able values are [option];
  - [time.time()] readings are rationals ([Q]); the binary rounding of
    Python floats is abstracted, [round(x, 2)] is rounding to the nearest
    hundredth with ties to even;
  - the dictionary [status_data] is a [gmap string _]; the list [urls] is a
    [list];
  - what the network and the clocks deliver is an input of the model
    (an [Attempt] per probe), the code decides everything else. *)

From Stdlib Require Import ZArith QArith Qround String List Lia DecimalString.
From stdpp Require Import gmap strings list fin_maps.
From Stdlib Require Import Ascii.

Close Scope Q_scope.
Close Scope Z_scope.
Open Scope string_scope.
Open Scope list_scope.
Open Scope nat_scope.

(** ** Python primitives used by both front ends *)
Module Py.

(** [str(n)] for an [int]. *)
Definition str_int (n : Z) : string := NilZero.string_of_int (Z.to_int n).

(** Nearest integer, ties to even. *)
Definition round_half_even (x : Q) : Z :=
  let f := Qfloor x in
  let r := (x - inject_Z f)%Q in
  match (r ?= 1 # 2)%Q with
  | Lt => f
  | Gt => (f + 1)%Z
  | Eq => if Z.even f then f else (f + 1)%Z
  end.

(** [round(x, 2)]. *)
Definition round2 (x : Q) : Q := (inject_Z (round_half_even (x * 100)) / 100)%Q.

(** [(time.time() - start_time) * 1000] *)
Definition elapsed_ms (start_time now : Q) : Q := ((now - start_time) * 1000)%Q.

End Py.

(** ** What one call of [urllib.request.urlopen] can do *)

Inductive Outcome : Type :=
| Responded (code : option Z)
    (** a response object came back; [code] is [response.getcode()],
        which is [None] for a response that is not HTTP *)
| RaisedHTTPError (code : Z) (reason : string)
    (** [urllib.error.HTTPError] with [e.code] and [e.reason] *)
| RaisedURLError (reason : string)
    (** [urllib.error.URLError], [reason] is [str(e.reason)] *)
| RaisedException (msg : string).
    (** any other [Exception], [msg] is [str(e)] *)

(** One probe attempt: the outcome and the clock readings around it. *)
Record Attempt : Type := mkAttempt {
outcome : Outcome;
start_time : Q;   (** [time.time()] before the request *)
end_time : Q      (** [time.time()] when the outcome is handled *)
}.

Inductive Status : Type := Up | Warning | Down | Unknown.

#[global] Instance Status_eq_dec : EqDecision Status.
Proof. solve_decision. Defined.

(** The message of the [TypeError] raised by [200 <= None]. *)
Definition compare_none_msg : string :=
"'<=' not supported between instances of 'int' and 'NoneType'".

(** ** [api_monitor.py] *)
Module ApiMonitor.

Definition status_str (s : Status) : string :=
  match s with
  | Up => "up" | Warning => "warning" | Down => "down" | Unknown => "unknown"
  end.

(** The dictionary returned by [check_url]. *)
Record ProbeResult : Type := mkResult {
  res_status : Status;
  res_response_time : Q;
  res_status_code : option Z;
  res_error : option string
}.

(** [APIMonitor.check_url], lines 56-98. *)
Definition check_url (a : Attempt) : ProbeResult :=
  let response_time := Py.round2 (Py.elapsed_ms (start_time a) (end_time a)) in
  match outcome a with
  | Responded (Some status_code) =>
      {| res_status :=
           if ((200 <=? status_code)%Z && (status_code <? 400)%Z)%bool
           then Up else Warning;
         res_response_time := response_time;
         res_status_code := Some status_code;
         res_error := None |}
  | Responded None =>
      (* the comparison raises inside the [try]; the last handler runs *)
      {| res_status := Down;
         res_response_time := response_time;
         res_status_code := None;
         res_error := Some ("Error: " +:+ compare_none_msg) |}
  | RaisedHTTPError code reason =>
      {| res_status := Down;
         res_response_time := response_time;
         res_status_code := Some code;
         res_error := Some ("HTTP Error: " +:+ Py.str_int code +:+ " " +:+ reason) |}
  | RaisedURLError reason =>
      {| res_status := Down;
         res_response_time := response_time;
         res_status_code := None;
         res_error := Some ("URL Error: " +:+ reason) |}
  | RaisedException msg =>
      {| res_status := Down;
         res_response_time := response_time;
         res_status_code := None;
         res_error := Some ("Error: " +:+ msg) |}
  end.

(** One element of [self.urls]. *)
Record Target : Type := mkTarget {
  url : string;
  name : string;
  id : nat
}.

(** One element of a ['history'] list, lines 112-117. *)
Record HistoryEntry : Type := mkEntry {
  h_timestamp : string;
  h_status : Status;
  h_response_time : Q;
  h_status_code : option Z
}.

(** One value of [self.status_data], lines 36-43. *)
Record TargetState : Type := mkState {
  status : Status;
  response_time : Q;
  last_check : option string;
  status_code : option Z;
  error : option string;
  history : list HistoryEntry
}.

(** The worker created by [start_monitoring]; it runs [monitor_urls]. *)
Inductive Thread : Type := MonitorThread.

(** An [APIMonitor] instance, lines 19-23. *)
Record Monitor : Type := mkMonitor {
  urls : list Target;
  status_data : gmap string TargetState;
  monitoring : bool;
  monitor_thread : option Thread
}.

(** [APIMonitor.__init__] *)
Definition init : Monitor :=
  {| urls := []; status_data := ∅; monitoring := false; monitor_thread := None |}.

Definition initial_state : TargetState :=
  {| status := Unknown; response_time := 0; last_check := None;
     status_code := None; error := None; history := [] |}.

(** [APIMonitor.add_url], lines 25-43. *)
Definition add_url (u : string) (nm : option string) (m : Monitor) : Monitor :=
  let nm := match nm with None => u | Some n => n end in
  let url_info := {| url := u; name := nm; id := length (urls m) |} in
  {| urls := urls m ++ [url_info];
     status_data := <[u := initial_state]> (status_data m);
     monitoring := monitoring m;
     monitor_thread := monitor_thread m |}.

(** [for i, url_info in enumerate(self.urls): url_info['id'] = i] *)
Definition update_ids (l : list Target) : list Target :=
  imap (fun i url_info => {| url := url url_info; name := name url_info; id := i |}) l.

(** [self.urls[url_id]] behind the guard [0 <= url_id < len(self.urls)]
    that both users of an id put before it. *)
Definition target_at (url_id : Z) (l : list Target) : option Target :=
  if ((0 <=? url_id)%Z && (url_id <? Z.of_nat (length l))%Z)%bool
  then l !! Z.to_nat url_id else None.

(** [APIMonitor.remove_url], lines 45-54. *)
Definition remove_url (url_id : Z) (m : Monitor) : Monitor :=
  match target_at url_id (urls m) with
  | Some url_info =>
      {| urls := update_ids (delete (Z.to_nat url_id) (urls m));
         status_data := delete (url url_info) (status_data m);
         monitoring := monitoring m;
         monitor_thread := monitor_thread m |}
  | None => m
  end.

(** What the scheduler sees at one target: the probe attempt and the two
    readings of [datetime.datetime.now().isoformat()]. *)
Record Observation : Type := mkObs {
  attempt : Attempt;
  last_check_now : string;
  history_now : string
}.

Inductive PyError : Type := KeyError (key : string).

(** [self.status_data[url].update(result)] *)
Definition update (result : ProbeResult) (st : TargetState) : TargetState :=
  {| status := res_status result;
     response_time := res_response_time result;
     last_check := last_check st;
     status_code := res_status_code result;
     error := res_error result;
     history := history st |}.

Definition set_last_check (now : string) (st : TargetState) : TargetState :=
  {| status := status st; response_time := response_time st;
     last_check := Some now;
     status_code := status_code st; error := error st; history := history st |}.

Definition set_history (h : list HistoryEntry) (st : TargetState) : TargetState :=
  {| status := status st; response_time := response_time st;
     last_check := last_check st;
     status_code := status_code st; error := error st; history := h |}.

(** Lines 112-117. *)
Definition history_entry (now : string) (result : ProbeResult) : HistoryEntry :=
  {| h_timestamp := now;
     h_status := res_status result;
     h_response_time := res_response_time result;
     h_status_code := res_status_code result |}.

(** Lines 118-120: [append], then [pop(0)] when longer than 50. *)
Definition append_history (h : list HistoryEntry) (e : HistoryEntry) : list HistoryEntry :=
  let h1 := h ++ [e] in
  if 50 <? length h1 then drop 1 h1 else h1.

(** Lines 108-120 on the dictionary [self.status_data[url]]. *)
Definition record_result (o : Observation) (st : TargetState) : TargetState :=
  let result := check_url (attempt o) in
  let st := set_last_check (last_check_now o) (update result st) in
  let entry := history_entry (history_now o) result in
  set_history (append_history (history st) entry) st.

(** The body of the [for] loop of [monitor_urls], lines 104-120, for the
    target with url [u].  The state it leaves and the exception that
    escapes, if any. *)
Definition monitor_body (o : Observation) (u : string) (m : Monitor)
  : Monitor * option PyError :=
  match status_data m !! u with
  | None => (m, Some (KeyError u))
  | Some st =>
      ({| urls := urls m;
          status_data := <[u := record_result o st]> (status_data m);
          monitoring := monitoring m;
          monitor_thread := monitor_thread m |}, None)
  end.

(** [for url_info in self.urls: ...]; the probe at position [i] of the
    cycle observes [obs i]. *)
Fixpoint for_urls (obs : nat -> Observation) (i : nat) (l : list Target) (m : Monitor)
  : Monitor * option PyError :=
  match l with
  | [] => (m, None)
  | url_info :: rest =>
      match monitor_body (obs i) (url url_info) m with
      | (m', None) => for_urls obs (S i) rest m'
      | (m', Some e) => (m', Some e)
      end
  end.

(** One iteration of the [while] loop (the [sleep] changes no state). *)
Definition monitor_cycle (obs : nat -> Observation) (m : Monitor)
  : Monitor * option PyError :=
  for_urls obs 0 (urls m) m.

Inductive LoopExit : Type :=
  | StillRunning              (** the cycles given are used up *)
  | Returned                  (** [self.monitoring] was found false *)
  | Raised (e : PyError).     (** an exception ended the thread *)

(** [APIMonitor.monitor_urls], lines 100-122, run for the cycles whose
    observations are given. *)
Fixpoint monitor_urls (cycles : list (nat -> Observation)) (m : Monitor)
  : Monitor * LoopExit :=
  if monitoring m then
    match cycles with
    | [] => (m, StillRunning)
    | obs :: rest =>
        match monitor_cycle obs m with
        | (m', None) => monitor_urls rest m'
        | (m', Some e) => (m', Raised e)
        end
    end
  else (m, Returned).

(** What the two lifecycle operations do to the worker. *)
Inductive Effect : Type :=
  | StartThread    (** [Thread(target=self.monitor_urls, daemon=True).start()] *)
  | JoinThread.    (** [self.monitor_thread.join(timeout=5)] *)

(** [APIMonitor.start_monitoring], lines 124-129. *)
Definition start_monitoring (m : Monitor) : Monitor * list Effect :=
  if (negb (monitoring m) && bool_decide (urls m ≠ []))%bool then
    ({| urls := urls m; status_data := status_data m;
        monitoring := true; monitor_thread := Some MonitorThread |},
     [StartThread])
  else (m, []).

(** [APIMonitor.stop_monitoring], lines 131-135. *)
Definition stop_monitoring (m : Monitor) : Monitor * list Effect :=
  ({| urls := urls m; status_data := status_data m;
      monitoring := false; monitor_thread := monitor_thread m |},
   match monitor_thread m with Some _ => [JoinThread] | None => [] end).

(** The replies of the HTTP handler that matter here. *)
Inductive Reply : Type :=
  | Json200 (body : list HistoryEntry)   (** [send_response(200)] and the list *)
  | SendError (code : nat).              (** [send_error(code)] *)

(** [APIMonitorHandler.serve_history_json], lines 530-541. *)
Definition serve_history_json (url_id : Z) (m : Monitor) : Reply :=
  match target_at url_id (urls m) with
  | Some url_info =>
      Json200 (match status_data m !! url url_info with
               | Some st => history st
               | None => []
               end)
  | None => SendError 404
  end.

(** Everything that can happen to a monitor: the calls of the front end
    and the steps of the worker.  A worker step is one run of the loop
    body, so that calls may fall between two probes of a cycle. *)
Inductive Event : Type :=
  | EvAdd (u : string) (nm : option string)
  | EvRemove (url_id : Z)
  | EvStart
  | EvStop
  | EvProbe (o : Observation) (u : string).

Definition step (e : Event) (m : Monitor) : Monitor :=
  match e with
  | EvAdd u nm => add_url u nm m
  | EvRemove url_id => remove_url url_id m
  | EvStart => fst (start_monitoring m)
  | EvStop => fst (stop_monitoring m)
  | EvProbe o u => fst (monitor_body o u m)
  end.

Definition run (es : list Event) (m : Monitor) : Monitor :=
  fold_left (fun m e => step e m) es m.

End ApiMonitor.

(** ** [cli_monitor.py] *)
Module CliMonitor.

Definition UP : string := "🟢 UP".
Definition WARNING : string := "🟡 WARNING".
Definition DOWN : string := "🔴 DOWN".

Record ProbeResult : Type := mkResult {
  res_status : string;
  res_response_time : Q;
  res_status_code : option Z;
  res_error : option string
}.

(** [CLIAPIMonitor.check_url], lines 29-76. *)
Definition check_url (a : Attempt) : ProbeResult :=
  let response_time := Py.round2 (Py.elapsed_ms (start_time a) (end_time a)) in
  match outcome a with
  | Responded (Some status_code) =>
      let status :=
        if ((200 <=? status_code)%Z && (status_code <? 400)%Z)%bool
        then UP else WARNING in
      {| res_status := status;
         res_response_time := response_time;
         res_status_code := Some status_code;
         res_error := None |}
  | Responded None =>
      {| res_status := DOWN;
         res_response_time := response_time;
         res_status_code := None;
         res_error := Some ("Error: " +:+ compare_none_msg) |}
  | RaisedHTTPError code reason =>
      {| res_status := DOWN;
         res_response_time := response_time;
         res_status_code := Some code;
         res_error := Some ("HTTP " +:+ Py.str_int code +:+ ": " +:+ reason) |}
  | RaisedURLError reason =>
      {| res_status := DOWN;
         res_response_time := response_time;
         res_status_code := None;
         res_error := Some ("Connection Error: " +:+ reason) |}
  | RaisedException msg =>
      {| res_status := DOWN;
         res_response_time := response_time;
         res_status_code := None;
         res_error := Some ("Error: " +:+ msg) |}
  end.

End CliMonitor.

(** ** [api_monitor.py]: the request handler *)
Module Handler.
Import ApiMonitor.

(** [s.split('/')]: the pieces of [s] between the slashes; never empty. *)
Fixpoint split_slash (s : string) : list string :=
  match s with
  | EmptyString => [""]
  | String a s' =>
      if Ascii.eqb a "/"%char then "" :: split_slash s'
      else match split_slash s' with
           | piece :: pieces => String a piece :: pieces
           | [] => [String a ""]
           end
  end.

(** [s.endswith(suffix)] *)
Fixpoint endswith (suffix s : string) : bool :=
  String.eqb s suffix ||
  match s with
  | EmptyString => false
  | String _ s' => endswith suffix s'
  end.

(** [l[-n]] for [n >= 1]; [None] stands for the [IndexError]. *)
Definition from_end {A : Type} (n : nat) (l : list A) : option A :=
  if (1 <=? n) && (n <=? length l) then l !! (length l - n) else None.

(** No slash occurs in [s]. *)
Fixpoint slash_free (s : string) : bool :=
  match s with
  | EmptyString => true
  | String a s' => negb (Ascii.eqb a "/"%char) && slash_free s'
  end.

(** What a request is answered with. *)
Inductive Response : Type :=
  | Page                                      (** [serve_html]: the page *)
  | StatusJson (d : gmap string TargetState)  (** [json.dumps(monitor.status_data)] *)
  | UrlsJson (l : list Target)                (** [json.dumps(monitor.urls)] *)
  | History (r : Reply)                       (** what [serve_history_json] sends *)
  | Success                                   (** 200 and [{'success': True}] *)
  | NotFound.                                 (** [send_error(404)] *)

Inductive HandlerError : Type :=
  | ValueError (s : string)   (** [int(s)] refused [s] *)
  | IndexError.

(** A handler sends a response or lets an exception escape. *)
Inductive Handled : Type :=
  | Replied (r : Response)
  | Escaped (e : HandlerError).

Section Routes.

(** [int(s)] of a [str]: the number, or [None] for a [ValueError]. *)
Variable py_int : string -> option Z.

(** [APIMonitorHandler.add_url], lines 543-562: it decodes the body of the
    request, which is no part of this model. *)
Variable add_url_handler : Monitor -> Monitor * Handled.

(** [APIMonitorHandler.do_GET], lines 142-154. *)
Definition do_GET (path : string) (m : Monitor) : Handled :=
  if String.eqb path "/" || String.eqb path "/index.html" then Replied Page
  else if String.eqb path "/api/status" then Replied (StatusJson (status_data m))
  else if String.eqb path "/api/urls" then Replied (UrlsJson (urls m))
  else if String.prefix "/api/history/" path then
    match from_end 1 (split_slash path) with
    | None => Escaped IndexError
    | Some piece =>
        match py_int piece with
        | None => Escaped (ValueError piece)
        | Some url_id => Replied (History (serve_history_json url_id m))
        end
    end
  else Replied NotFound.

(** [APIMonitorHandler.do_POST], lines 156-168, with the handlers
    [delete_url], [start_monitoring] and [stop_monitoring], lines 564-586. *)
Definition do_POST (path : string) (m : Monitor) : Monitor * list Effect * Handled :=
  if String.eqb path "/api/urls" then
    let '(m', h) := add_url_handler m in (m', [], h)
  else if String.prefix "/api/urls/" path && endswith "/delete" path then
    match from_end 2 (split_slash path) with
    | None => (m, [], Escaped IndexError)
    | Some piece =>
        match py_int piece with
        | None => (m, [], Escaped (ValueError piece))
        | Some url_id => (remove_url url_id m, [], Replied Success)
        end
    end
  else if String.eqb path "/api/start" then
    let '(m', effects) := start_monitoring m in (m', effects, Replied Success)
  else if String.eqb path "/api/stop" then
    let '(m', effects) := stop_monitoring m in (m', effects, Replied Success)
  else (m, [], Replied NotFound).

End Routes.

End Handler.

(** ** [cli_monitor.py]: registry, report, loop and command line *)
Module CliMain.

(** One element of [self.urls]. *)
Record Target : Type := mkTarget {
  url : string;
  name : string
}.

(** A [CLIAPIMonitor] instance, lines 18-20. *)
Record Monitor : Type := mkMonitor {
  urls : list Target;
  running : bool
}.

(** What is written to the terminal, one element per call of [print];
    [print_usage()] writes a fixed text and is one element. *)
Inductive Printed : Type :=
  | Line (s : string)
  | Usage.

(** The line feed. *)
Definition nl : string := String (ascii_of_nat 10) "".

(** [s * n] *)
Fixpoint str_mul (s : string) (n : nat) : string :=
  match n with
  | O => ""
  | S n' => s +:+ str_mul s n'
  end.

(** [CLIAPIMonitor.add_url], lines 22-27. *)
Definition add_url (u : string) (nm : option string) (m : Monitor)
  : Monitor * list Printed :=
  let nm := match nm with None => u | Some n => n end in
  ({| urls := urls m ++ [{| url := u; name := nm |}]; running := running m |},
   [Line ("✅ Added: " +:+ nm +:+ " (" +:+ u +:+ ")")]).

(** The truth value of an optional [int] and of an optional [str]. *)
Definition truthy_int (o : option Z) : bool :=
  match o with Some c => negb (c =? 0)%Z | None => false end.

Definition truthy_str (o : option string) : bool :=
  match o with Some s => negb (String.eqb s "") | None => false end.

Inductive Mode : Type := Once | Continuous.

(** The variables of [main] while it reads the arguments. *)
Record Parse : Type := mkParse {
  monitor : Monitor;
  interval : Z;
  mode : Mode;
  last_url_name : option string;
  printed : list Printed
}.

Definition start : Parse :=
  {| monitor := {| urls := []; running := false |};
     interval := 30; mode := Continuous; last_url_name := None; printed := [] |}.

(** How reading the arguments ends: at the end of the list, or by an
    early [return] after a message. *)
Inductive Parsed : Type :=
  | AtEnd (st : Parse)
  | Returned (out : list Printed).

(** The call [main] ends with. *)
Inductive Action : Type :=
  | Exit
  | CheckAllUrls (m : Monitor)
  | MonitorContinuously (m : Monitor) (interval : Z).

Inductive LoopEnd : Type :=
  | StillRunning            (** the rounds given are used up *)
  | Stopped                 (** [self.running] was found false *)
  | SleepRaised.            (** [time.sleep] raised *)

(** What one round of checks sees: the time for the heading and the
    attempts, by position in the registry. *)
Record Round : Type := mkRound {
  round_now : string;
  round_attempts : nat -> Attempt
}.

Section WithPython.

(** [int(s)] of a [str]: the number, or [None] for a [ValueError]. *)
Variable py_int : string -> option Z.

(** [str(x)] of a [float]. *)
Variable str_float : Q -> string.

(** [time.sleep(n)] returns, or raises. *)
Variable sleep_raises : Z -> bool.

(** Lines 94-97. *)
Definition status_line (nm : string) (result : CliMonitor.ProbeResult) : string :=
  let line := CliMonitor.res_status result +:+ " " +:+ nm in
  let line :=
    match CliMonitor.res_status_code result with
    | Some c =>
        if truthy_int (Some c)
        then line +:+ " (HTTP " +:+ Py.str_int c +:+ ")" else line
    | None => line
    end in
  line +:+ " - " +:+ str_float (CliMonitor.res_response_time result) +:+ "ms".

(** Lines 94-105: what is printed for one target. *)
Definition report (t : Target) (result : CliMonitor.ProbeResult) : list Printed :=
  [Line (status_line (name t) result)]
  ++ match CliMonitor.res_error result with
     | Some e => if truthy_str (Some e) then [Line ("   Error: " +:+ e)] else []
     | None => []
     end
  ++ [Line ("   URL: " +:+ url t); Line ""].

(** [for url_info in self.urls: ...], lines 87-105. *)
Fixpoint for_urls (attempts : nat -> Attempt) (i : nat) (l : list Target)
  : list Printed :=
  match l with
  | [] => []
  | url_info :: rest =>
      report url_info (CliMonitor.check_url (attempts i))
      ++ for_urls attempts (S i) rest
  end.

(** [CLIAPIMonitor.check_all_urls], lines 78-105. *)
Definition check_all_urls (r : Round) (m : Monitor) : list Printed :=
  match urls m with
  | [] => [Line "⚠️  No URLs to monitor. Add some URLs first."]
  | _ :: _ =>
      [Line (nl +:+ "📊 Checking " +:+ Py.str_int (Z.of_nat (length (urls m)))
             +:+ " URLs at " +:+ round_now r);
       Line (str_mul "=" 80)]
      ++ for_urls (round_attempts r) 0 (urls m)
  end.

(** The [while] loop of [monitor_continuously], lines 116-121, for the
    rounds given and with no signal arriving. *)
Fixpoint check_loop (n : Z) (rounds : list Round) (m : Monitor)
  : list Printed * LoopEnd :=
  if running m then
    match rounds with
    | [] => ([], StillRunning)
    | r :: rest =>
        let out :=
          check_all_urls r m
          ++ [Line ("⏳ Waiting " +:+ Py.str_int n +:+ " seconds until next check...")] in
        if sleep_raises n then (out, SleepRaised)
        else let '(out', e) := check_loop n rest m in (out ++ out', e)
    end
  else ([], Stopped).

(** [CLIAPIMonitor.monitor_continuously], lines 107-124. *)
Definition monitor_continuously (n : Z) (rounds : list Round) (m : Monitor)
  : Monitor * list Printed * LoopEnd :=
  let m := {| urls := urls m; running := true |} in
  let '(out, e) := check_loop n rounds m in
  (m,
   [Line ("🔍 Starting continuous monitoring (checking every "
          +:+ Py.str_int n +:+ " seconds)");
    Line "Press Ctrl+C to stop";
    Line (str_mul "=" 80)] ++ out,
   e).

(** [arg in [a, b]] *)
Definition one_of (arg a b : string) : bool := String.eqb arg a || String.eqb arg b.

Definition with_output (out : list Printed) (st : Parse) : list Printed :=
  printed st ++ out.

(** The [while] loop of [main], lines 180-223, on the arguments not yet
    read. *)
Fixpoint read_args (args : list string) (st : Parse) : Parsed :=
  match args with
  | [] => AtEnd st
  | arg :: rest =>
      if one_of arg "-h" "--help" then Returned (with_output [Usage] st)
      else if one_of arg "-u" "--url" then
        match rest with
        | u :: rest' =>
            let nm := if truthy_str (last_url_name st)
                      then match last_url_name st with Some n => n | None => u end
                      else u in
            let '(m, out) := add_url u (Some nm) (monitor st) in
            read_args rest'
              {| monitor := m; interval := interval st; mode := mode st;
                 last_url_name := None; printed := with_output out st |}
        | [] => Returned (with_output [Line "❌ Error: --url requires a URL argument"] st)
        end
      else if one_of arg "-n" "--name" then
        match rest with
        | n :: rest' =>
            read_args rest'
              {| monitor := monitor st; interval := interval st; mode := mode st;
                 last_url_name := Some n; printed := printed st |}
        | [] => Returned (with_output [Line "❌ Error: --name requires a name argument"] st)
        end
      else if one_of arg "-i" "--interval" then
        match rest with
        | v :: rest' =>
            match py_int v with
            | Some n =>
                read_args rest'
                  {| monitor := monitor st; interval := n; mode := mode st;
                     last_url_name := last_url_name st; printed := printed st |}
            | None =>
                Returned (with_output [Line "❌ Error: --interval requires a number"] st)
            end
        | [] =>
            Returned (with_output [Line "❌ Error: --interval requires a number argument"] st)
        end
      else if one_of arg "-o" "--once" then
        read_args rest
          {| monitor := monitor st; interval := interval st; mode := Once;
             last_url_name := last_url_name st; printed := printed st |}
      else if one_of arg "-c" "--continuous" then
        read_args rest
          {| monitor := monitor st; interval := interval st; mode := Continuous;
             last_url_name := last_url_name st; printed := printed st |}
      else
        Returned (with_output
                    [Line ("❌ Error: Unknown argument '" +:+ arg +:+ "'"); Usage] st)
  end.

(** Lines 226-230: the default targets, when none was given. *)
Definition add_defaults (st : Parse) : Monitor * list Printed :=
  match urls (monitor st) with
  | [] =>
      let '(m1, out1) := add_url "https://httpbin.org/status/200" (Some "HTTPBin OK")
                           (monitor st) in
      let '(m2, out2) := add_url "https://httpbin.org/status/404" (Some "HTTPBin 404") m1 in
      let '(m3, out3) := add_url "https://jsonplaceholder.typicode.com/posts/1"
                           (Some "JSONPlaceholder") m2 in
      (m3, with_output
             ([Line "📝 No URLs specified, adding default test URLs..."]
              ++ out1 ++ out2 ++ out3) st)
  | _ :: _ => (monitor st, printed st)
  end.

(** [main], lines 168-236, for the arguments [sys.argv[1:]]: what it
    prints itself and the call it ends with. *)
Definition main (args : list string) : list Printed * Action :=
  match read_args args start with
  | Returned out => (out, Exit)
  | AtEnd st =>
      let '(m, out) := add_defaults st in
      match mode st with
      | Once => (out, CheckAllUrls m)
      | Continuous => (out, MonitorContinuously m (interval st))
      end
  end.

End WithPython.

End CliMain.

(** ** Notions of the specification *)

Import ApiMonitor.

(** An optional field is present. *)
Definition present {A : Type} (o : option A) : bool :=
  match o with Some _ => true | None => false end.

(** Exactly one of two facts holds. *)
Definition exactly_one (p q : bool) : Prop := xorb p q = true.

(** The most recent [n] elements of a log kept oldest first. *)
Definition last_n {A : Type} (n : nat) (l : list A) : list A :=
  drop (length l - n) l.

(** Every position of the registry holds the target with that id. *)
Definition ids_contiguous (l : list Target) : Prop :=
  forall i t, l !! i = Some t -> id t = i.

(** The history entry a probe leaves can be read for the probe's error
    message: some reading [error_of] of entries returns, for every probe
    the scheduler records, the error message of that probe. *)
Definition history_carries_error : Prop :=
  exists error_of : HistoryEntry -> option string,
    forall (o : Observation) (u : string) (m m' : Monitor),
      monitor_body o u m = (m', None) ->
      exists st e,
        status_data m' !! u = Some st /\
        last (history st) = Some e /\
        error_of e = res_error (check_url (attempt o)).

(** No history of the state store is longer than the capacity, 50. *)
Definition histories_bounded (m : Monitor) : Prop :=
  forall u st, status_data m !! u = Some st -> length (history st) <= 50.

(** The entry the scheduler makes of the probe at the head of a cycle. *)
Definition entry_of (obs : nat -> Observation) : HistoryEntry :=
  history_entry (history_now (obs 0)) (check_url (attempt (obs 0))).

(** ** Sample inputs *)

Definition http_500 : Attempt :=
  mkAttempt (RaisedHTTPError 500 "Internal Server Error") 0 (1 # 3).

Definition timed_out : Observation :=
  mkObs (mkAttempt (RaisedURLError "timed out") 0 10) "12:00:10" "12:00:10".

Definition refused : Observation :=
  mkObs (mkAttempt (RaisedURLError "[Errno 111] Connection refused") 0 10)
        "12:00:10" "12:00:10".

Definition three_targets : Monitor :=
  add_url "https://c.example" None
    (add_url "https://b.example" (Some "B")
       (add_url "https://a.example" (Some "A") init)).

(** Fifty-one cycles against one target, told apart by their clock
    readings: cycle [k] reads the time [k]. *)
Definition cycle_at (k : nat) : nat -> Observation :=
  fun _ => mkObs (mkAttempt (Responded (Some 200%Z)) 0 (1 # 100))
                 (Py.str_int (Z.of_nat k)) (Py.str_int (Z.of_nat k)).

Definition cycles_51 : list (nat -> Observation) := map cycle_at (seq 0 51).

(** Two targets with the same url, the first one probed once. *)
Definition twice_registered : Monitor :=
  add_url "https://a.example" (Some "again")
    (fst (monitor_body timed_out "https://a.example"
            (add_url "https://a.example" (Some "A") init))).

(** [int(s)] on plain decimal numerals, with which the properties of the
    routes and of the command line are tried. *)
Definition decimal_int (s : string) : option Z :=
  option_map Z.of_int (NilZero.int_of_string s).

(** A handler for the body of [POST /api/urls] that refuses every body. *)
Definition refuse_body (m : Monitor) : Monitor * Handler.Handled :=
  (m, Handler.Replied Handler.NotFound).

(** [time.sleep(n)] as far as its sign goes: it raises [ValueError] for
    a negative [n]. *)
Definition sleep_negative (n : Z) : bool := (n <? 0)%Z.

(** A stand-in for [str] of a [float] where the text of the number does
    not matter. *)
Definition whole_part (x : Q) : string := Py.str_int (Qfloor x) +:+ ".0".

(** The result at position [i] of a round is [DOWN]. *)
Definition is_down (r : CliMain.Round) (i : nat) : Prop :=
  CliMonitor.res_status (CliMonitor.check_url (CliMain.round_attempts r i))
  = CliMonitor.DOWN.

#[global] Instance is_down_dec (r : CliMain.Round) (i : nat) : Decision (is_down r i).
Proof. unfold is_down. apply _. Defined.

(** A round in which the first target answers and the others refuse. *)
Definition mixed_round : CliMain.Round :=
  CliMain.mkRound "2024-01-01 12:00:00"
    (fun i => match i with
              | O => mkAttempt (Responded (Some 200%Z)) 0 (1 # 10)
              | S _ => attempt refused
              end).

Definition two_cli_targets : CliMain.Monitor :=
  CliMain.mkMonitor
    [CliMain.mkTarget "https://a.example" "A"; CliMain.mkTarget "https://b.example" "B"]
    false.

(** ** Notions of the further properties *)

(** Some target of the registry has the url [u]. *)
Definition registered (u : string) (m : Monitor) : Prop :=
  exists t, t ∈ urls m /\ url t = u.

(** Every target of the list has a state under its url. *)
Definition all_have_state (l : list Target) (m : Monitor) : Prop :=
  forall t, t ∈ l -> is_Some (status_data m !! url t).

(** Along the run [es] from [m], no [add_url] is of a url that a target of
    the registry has at that moment. *)
Fixpoint adds_fresh (es : list Event) (m : Monitor) : bool :=
  match es with
  | [] => true
  | e :: es' =>
      match e with
      | EvAdd u _ => bool_decide (u ∉ url <$> urls m)
      | _ => true
      end && adds_fresh es' (step e m)
  end.

(** The entries that one pass over the targets [l], whose first target is
    probed at position [i], makes for the url [u]. *)
Fixpoint entries_for (u : string) (obs : nat -> Observation) (i : nat) (l : list Target)
  : list HistoryEntry :=
  match l with
  | [] => []
  | t :: rest =>
      (if decide (url t = u)
       then [history_entry (history_now (obs i)) (check_url (attempt (obs i)))]
       else [])
      ++ entries_for u obs (S i) rest
  end.


(** ** The prober *)

Lemma round_half_even_nonneg (x : Q) : (0 <= x)%Q -> (0 <= Py.round_half_even x)%Z.
Proof.
  intros Hx. unfold Py.round_half_even.
  assert (Hf : (0 <= Qfloor x)%Z).
  { change 0%Z with (Qfloor 0). now apply Qfloor_resp_le. }
  destruct (_ ?= _)%Q; [destruct (Z.even _)|..]; lia.
Qed.

Lemma round2_nonneg (x : Q) : (0 <= x)%Q -> (0 <= Py.round2 x)%Q.
Proof.
  intros Hx. unfold Py.round2.
  assert (H100 : (0 <= x * 100)%Q).
  { apply Qmult_le_0_compat; [assumption | discriminate]. }
  apply round_half_even_nonneg in H100.
  unfold Qdiv. apply Qmult_le_0_compat.
  - unfold Qle; simpl. lia.
  - discriminate.
Qed.

Lemma elapsed_ms_nonneg (t0 t1 : Q) : (t0 <= t1)%Q -> (0 <= Py.elapsed_ms t0 t1)%Q.
Proof.
  intros H. unfold Py.elapsed_ms.
  apply Qmult_le_0_compat; [|discriminate].
  now apply (proj1 (Qle_minus_iff t0 t1)).
Qed.

Lemma check_url_response_time (a : Attempt) :
  res_response_time (check_url a)
  = Py.round2 (Py.elapsed_ms (start_time a) (end_time a)).
Proof. unfold check_url. destruct (outcome a) as [[c|]| | |]; reflexivity. Qed.

Lemma cli_check_url_response_time (a : Attempt) :
  CliMonitor.res_response_time (CliMonitor.check_url a)
  = Py.round2 (Py.elapsed_ms (start_time a) (end_time a)).
Proof.
  unfold CliMonitor.check_url. destruct (outcome a) as [[c|]| | |]; reflexivity.
Qed.

(** C1. [check_url] classifies every terminal outcome of the attempt by the
    rule of the prober: a response with a code in [200, 400) is [Up]; a
    response with a code [>= 400] or [< 200] is [Warning]; an [HTTPError]
    is [Down], keeps its code and gets the message made of the code and
    the reason phrase; a [URLError] is [Down] without a code and with the
    transport error as message; any other exception is [Down] without a
    code and with a generic message. *)
Theorem check_url_classification (a : Attempt) :
  let r := check_url a in
  (forall c, outcome a = Responded (Some c) -> (200 <= c < 400)%Z ->
     res_status r = Up /\ res_status_code r = Some c /\ res_error r = None) /\
  (forall c, outcome a = Responded (Some c) -> (c >= 400 \/ c < 200)%Z ->
     res_status r = Warning /\ res_status_code r = Some c /\ res_error r = None) /\
  (forall c reason, outcome a = RaisedHTTPError c reason ->
     res_status r = Down /\ res_status_code r = Some c /\
     res_error r = Some ("HTTP Error: " +:+ Py.str_int c +:+ " " +:+ reason)) /\
  (forall reason, outcome a = RaisedURLError reason ->
     res_status r = Down /\ res_status_code r = None /\
     res_error r = Some ("URL Error: " +:+ reason)) /\
  (forall msg, outcome a = RaisedException msg ->
     res_status r = Down /\ res_status_code r = None /\
     res_error r = Some ("Error: " +:+ msg)).
Proof.
  cbv zeta. unfold check_url. repeat split; intros.
  all: match goal with H : outcome _ = _ |- _ => rewrite H end; simpl; try reflexivity.
  - assert ((200 <=? c)%Z = true) as -> by lia.
    assert ((c <? 400)%Z = true) as -> by lia. reflexivity.
  - destruct (200 <=? c)%Z eqn:E1, (c <? 400)%Z eqn:E2; simpl; try reflexivity; lia.
Qed.

Lemma check_url_classification_witness :
  res_status (check_url (mkAttempt (Responded (Some 204%Z)) 0 1)) = Up /\
  res_status (check_url (mkAttempt (Responded (Some 404%Z)) 0 1)) = Warning /\
  res_error (check_url http_500) = Some "HTTP Error: 500 Internal Server Error" /\
  res_error (check_url (attempt timed_out)) = Some "URL Error: timed out" /\
  res_error (check_url (mkAttempt (RaisedException "unknown url type: 'x'") 0 1))
  = Some "Error: unknown url type: 'x'".
Proof.
  split; [|split; [|split; [|split]]].
  - apply (proj1 (check_url_classification (mkAttempt (Responded (Some 204%Z)) 0 1)) 204%Z);
      [reflexivity | lia].
  - apply (proj1 (proj2 (check_url_classification (mkAttempt (Responded (Some 404%Z)) 0 1))) 404%Z);
      [reflexivity | lia].
  - apply (proj1 (proj2 (proj2 (check_url_classification http_500)))
             500%Z "Internal Server Error"). reflexivity.
  - apply (proj1 (proj2 (proj2 (proj2 (check_url_classification (attempt timed_out)))))
             "timed out"). reflexivity.
  - apply (proj2 (proj2 (proj2 (proj2
             (check_url_classification (mkAttempt (RaisedException "unknown url type: 'x'") 0 1)))))
             "unknown url type: 'x'"). reflexivity.
Defined.

(** C2, as stated, fails: for an [HTTPError] the result is [Down]
    and has both a status code and an error message. *)
Lemma http_error_has_code_and_message :
  let r := check_url http_500 in
  res_status r <> Up /\
  res_status_code r = Some 500%Z /\
  res_error r = Some "HTTP Error: 500 Internal Server Error" /\
  ~ exactly_one (present (res_status_code r)) (present (res_error r)).
Proof.
  cbv zeta. repeat split; try reflexivity; try discriminate.
Qed.

(** C2, amended.  When the clock reading taken at the outcome is not
    before the one taken at the start, the response time of the result is
    not negative; and every result that is not [Up] has at least one of
    status code and error message: both for an [HTTPError] (whose code is
    kept next to the message), exactly one in every other case.  The same
    holds of the command-line prober. *)
Theorem probe_result_shape (a : Attempt) :
  (start_time a <= end_time a)%Q ->
  let r := check_url a in
  let r' := CliMonitor.check_url a in
  (0 <= res_response_time r)%Q /\
  (res_status r <> Up ->
     match outcome a with
     | RaisedHTTPError c _ =>
         res_status_code r = Some c /\ present (res_error r) = true
     | _ => exactly_one (present (res_status_code r)) (present (res_error r))
     end) /\
  (0 <= CliMonitor.res_response_time r')%Q /\
  (CliMonitor.res_status r' <> CliMonitor.UP ->
     match outcome a with
     | RaisedHTTPError c _ =>
         CliMonitor.res_status_code r' = Some c /\
         present (CliMonitor.res_error r') = true
     | _ => exactly_one (present (CliMonitor.res_status_code r'))
                        (present (CliMonitor.res_error r'))
     end).
Proof.
  intros Hclock. cbv zeta.
  rewrite check_url_response_time, cli_check_url_response_time.
  pose proof (round2_nonneg _ (elapsed_ms_nonneg _ _ Hclock)) as Hrt.
  repeat split; try exact Hrt.
  - intros _. unfold check_url.
    destruct (outcome a) as [[c|]|c reason|reason|msg]; simpl; auto; reflexivity.
  - intros _. unfold CliMonitor.check_url.
    destruct (outcome a) as [[c|]|c reason|reason|msg]; simpl; auto; reflexivity.
Qed.

Lemma probe_result_shape_witness :
  (0 <= res_response_time (check_url http_500))%Q /\
  res_status_code (check_url http_500) = Some 500%Z /\
  present (res_error (check_url http_500)) = true.
Proof.
  assert (Hclock : (start_time http_500 <= end_time http_500)%Q)
    by (vm_compute; discriminate).
  pose proof (probe_result_shape http_500 Hclock) as H.
  cbv zeta in H. destruct H as (Hrt & Hshape & _).
  split; [exact Hrt|].
  apply Hshape. discriminate.
Defined.

(** Why the clock readings are assumed in order: [time.time()] is the
    wall clock, and a reading set back during the probe makes the
    difference negative. *)
Example response_time_clock_set_back :
  (res_response_time (check_url (mkAttempt (Responded (Some 200%Z)) 10 9))
   == inject_Z (-1000))%Q.
Proof. vm_compute. reflexivity. Qed.

(** ** Runs of events *)

Lemma run_snoc (es : list Event) (e : Event) (m : Monitor) :
  run (es ++ [e]) m = step e (run es m).
Proof. unfold run. now rewrite fold_left_app. Qed.

(** A property of the fresh monitor that every event keeps holds after
    every run. *)
Lemma run_invariant (P : Monitor -> Prop) :
  P init ->
  (forall e m, P m -> P (step e m)) ->
  forall es, P (run es init).
Proof.
  intros Hinit Hstep es.
  induction es as [|e es IH] using rev_ind; [exact Hinit|].
  rewrite run_snoc. now apply Hstep.
Qed.

(** ** The history ring *)

Lemma last_n_length {A : Type} (n : nat) (l : list A) :
  length (last_n n l) = Nat.min n (length l).
Proof. unfold last_n. rewrite length_drop. lia. Qed.

Lemma last_n_short {A : Type} (n : nat) (l : list A) :
  length l <= n -> last_n n l = l.
Proof. intros H. unfold last_n. now replace (length l - n) with 0 by lia. Qed.

Lemma append_history_last_n (h : list HistoryEntry) (e : HistoryEntry) :
  length h <= 50 -> append_history h e = last_n 50 (h ++ [e]).
Proof.
  intros Hlen. unfold append_history, last_n.
  rewrite length_app; simpl length.
  destruct (50 <? length h + 1) eqn:E.
  - apply Nat.ltb_lt in E. now replace (length h + 1 - 50) with 1 by lia.
  - apply Nat.ltb_ge in E. now replace (length h + 1 - 50) with 0 by lia.
Qed.

Lemma append_history_bounded (h : list HistoryEntry) (e : HistoryEntry) :
  length h <= 50 -> length (append_history h e) <= 50.
Proof.
  intros Hlen. rewrite append_history_last_n, last_n_length by assumption. lia.
Qed.

Lemma last_n_append_history (h es : list HistoryEntry) (e : HistoryEntry) :
  length h <= 50 ->
  last_n 50 (append_history h e ++ es) = last_n 50 (h ++ e :: es).
Proof.
  intros Hlen. unfold append_history.
  rewrite length_app; simpl length.
  destruct (50 <? length h + 1) eqn:E.
  - apply Nat.ltb_lt in E. assert (length h = 50) as Hh by lia.
    unfold last_n. rewrite !length_app, length_drop, length_app, Hh. simpl length.
    replace (50 + 1 - 1 + length es - 50) with (length es) by lia.
    replace (50 + S (length es) - 50) with (1 + length es) by lia.
    rewrite <- drop_drop.
    replace (h ++ e :: es) with ((h ++ [e]) ++ es) by now rewrite <- app_assoc.
    rewrite (drop_app_le (h ++ [e]) es 1); [reflexivity|].
    rewrite length_app; simpl; lia.
  - now rewrite <- app_assoc.
Qed.

Lemma fold_append_history (es h : list HistoryEntry) :
  length h <= 50 ->
  fold_left append_history es h = last_n 50 (h ++ es).
Proof.
  revert h. induction es as [|e es IH]; intros h Hlen; simpl.
  - rewrite app_nil_r. symmetry. now apply last_n_short.
  - rewrite IH by now apply append_history_bounded.
    now apply last_n_append_history.
Qed.

(** ** The scheduler *)

Lemma record_result_history (o : Observation) (st : TargetState) :
  history (record_result o st)
  = append_history (history st)
      (history_entry (history_now o) (check_url (attempt o))).
Proof. reflexivity. Qed.

Lemma monitor_body_known (o : Observation) (u : string) (m : Monitor) (st : TargetState) :
  status_data m !! u = Some st ->
  monitor_body o u m
  = ({| urls := urls m;
        status_data := <[u := record_result o st]> (status_data m);
        monitoring := monitoring m;
        monitor_thread := monitor_thread m |}, None).
Proof. intros H. unfold monitor_body. now rewrite H. Qed.

Lemma monitor_body_unknown (o : Observation) (u : string) (m : Monitor) :
  status_data m !! u = None -> monitor_body o u m = (m, Some (KeyError u)).
Proof. intros H. unfold monitor_body. now rewrite H. Qed.

Lemma monitor_body_urls (o : Observation) (u : string) (m : Monitor) :
  urls (fst (monitor_body o u m)) = urls m.
Proof. unfold monitor_body. now destruct (status_data m !! u). Qed.

Lemma add_url_bounded (u : string) (nm : option string) (m : Monitor) :
  histories_bounded m -> histories_bounded (add_url u nm m).
Proof.
  intros Hm v st. simpl. rewrite lookup_insert. case_decide.
  - intros [= <-]. simpl. lia.
  - apply Hm.
Qed.

Lemma remove_url_bounded (url_id : Z) (m : Monitor) :
  histories_bounded m -> histories_bounded (remove_url url_id m).
Proof.
  intros Hm. unfold remove_url. destruct (target_at _ _); [|exact Hm].
  intros v st. simpl. rewrite lookup_delete. case_decide; [discriminate|apply Hm].
Qed.

Lemma monitor_body_bounded (o : Observation) (u : string) (m : Monitor) :
  histories_bounded m -> histories_bounded (fst (monitor_body o u m)).
Proof.
  intros Hm. unfold monitor_body. destruct (status_data m !! u) as [st|] eqn:E; [|exact Hm].
  intros v st'. simpl. rewrite lookup_insert. case_decide.
  - intros [= <-]. rewrite record_result_history.
    apply append_history_bounded. now apply (Hm u).
  - apply Hm.
Qed.

Lemma step_bounded (e : Event) (m : Monitor) :
  histories_bounded m -> histories_bounded (step e m).
Proof.
  destruct e; simpl.
  - apply add_url_bounded.
  - apply remove_url_bounded.
  - unfold start_monitoring. now destruct (_ && _)%bool.
  - trivial.
  - apply monitor_body_bounded.
Qed.

Lemma monitor_urls_single (cycles : list (nat -> Observation)) :
  forall (m : Monitor) (t : Target) (st : TargetState),
    urls m = [t] -> monitoring m = true -> status_data m !! url t = Some st ->
    exists m' st',
      monitor_urls cycles m = (m', StillRunning) /\
      status_data m' !! url t = Some st' /\
      history st' = fold_left append_history (map entry_of cycles) (history st).
Proof.
  induction cycles as [|obs cycles IH]; intros m t st Hurls Hmon Hst.
  - exists m, st. simpl. now rewrite Hmon.
  - simpl. rewrite Hmon. unfold monitor_cycle. rewrite Hurls. simpl.
    rewrite (monitor_body_known _ _ _ _ Hst).
    set (m1 := {| urls := urls m;
                  status_data := <[url t := record_result (obs 0) st]> (status_data m);
                  monitoring := monitoring m;
                  monitor_thread := monitor_thread m |}).
    destruct (IH m1 t (record_result (obs 0) st)) as (m' & st' & Hrun & Hst' & Hh).
    + exact Hurls.
    + exact Hmon.
    + apply lookup_insert_eq.
    + exists m', st'. split; [exact Hrun|]. split; [exact Hst'|exact Hh].
Qed.

(** C3. The history of a target never holds more than 50 entries, whatever
    the calls and probes that led to the state; one append puts the new
    entry at the end and, when the length then exceeds 50, removes the
    entry at index 0, which leaves the most recent 50 in the order of
    their arrival; and the scheduler run for any number of cycles against
    one target leaves as its history the entries of the most recent 50
    cycles, oldest first, exactly 50 of them after 51 cycles or more. *)
Theorem history_ring_bounded_fifo :
  (forall es : list Event, histories_bounded (run es init)) /\
  (forall (o : Observation) (u : string) (m : Monitor) (st : TargetState),
      status_data m !! u = Some st ->
      let e := history_entry (history_now o) (check_url (attempt o)) in
      exists m' st',
        monitor_body o u m = (m', None) /\
        status_data m' !! u = Some st' /\
        history st' = (if 50 <? length (history st ++ [e])
                       then drop 1 (history st ++ [e])
                       else history st ++ [e]) /\
        (length (history st) <= 50 ->
         history st' = last_n 50 (history st ++ [e]))) /\
  (forall (u : string) (nm : option string) (cycles : list (nat -> Observation)),
      let m0 := fst (start_monitoring (add_url u nm init)) in
      exists m' st',
        monitor_urls cycles m0 = (m', StillRunning) /\
        status_data m' !! u = Some st' /\
        history st' = last_n 50 (map entry_of cycles) /\
        length (history st') <= 50 /\
        (51 <= length cycles -> length (history st') = 50)).
Proof.
  split; [|split].
  - apply run_invariant.
    + intros u st. simpl. now rewrite lookup_empty.
    + apply step_bounded.
  - intros o u m st Hst e.
    eexists _, (record_result o st).
    split; [exact (monitor_body_known o u m st Hst)|].
    split; [simpl; apply lookup_insert_eq|].
    split; [reflexivity|].
    intros Hlen. rewrite record_result_history. now apply append_history_last_n.
  - intros u nm cycles m0.
    destruct (monitor_urls_single cycles m0
                {| url := u; name := match nm with None => u | Some n => n end; id := 0 |}
                initial_state)
      as (m' & st' & Hrun & Hst' & Hh).
    + reflexivity.
    + reflexivity.
    + simpl. apply lookup_insert_eq.
    + simpl in Hst', Hh. rewrite fold_append_history in Hh by (simpl; lia).
      simpl in Hh.
      exists m', st'. split; [exact Hrun|]. split; [exact Hst'|].
      split; [exact Hh|]. rewrite Hh, last_n_length, length_map. lia.
Qed.

Lemma history_ring_bounded_fifo_witness :
  exists m' st',
    monitor_urls cycles_51
      (fst (start_monitoring (add_url "https://a.example" None init)))
    = (m', StillRunning) /\
    status_data m' !! "https://a.example" = Some st' /\
    history st' = last_n 50 (map entry_of cycles_51) /\
    length (history st') = 50.
Proof.
  destruct (proj2 (proj2 history_ring_bounded_fifo)
              "https://a.example" None cycles_51)
    as (m' & st' & Hrun & Hst & Hh & _ & Hlen).
  exists m', st'.
  split; [exact Hrun|]. split; [exact Hst|]. split; [exact Hh|].
  apply Hlen. vm_compute. lia.
Defined.

(** Scenario E on the code: after 51 cycles the entry of cycle 0 is gone
    and those of cycles 1 to 50 are left, in that order. *)
Example history_after_51_cycles :
  (fun st => map h_timestamp (history st))
    <$> status_data (fst (monitor_urls cycles_51
          (fst (start_monitoring (add_url "https://a.example" None init)))))
        !! "https://a.example"
  = Some (map (fun k => Py.str_int (Z.of_nat k)) (seq 1 50)).
Proof. vm_compute. reflexivity. Qed.

(** ** The registry *)

Lemma update_ids_contiguous (l : list Target) : ids_contiguous (update_ids l).
Proof.
  intros i t. unfold update_ids. rewrite list_lookup_imap.
  destruct (l !! i); simpl; [|discriminate]. now intros [= <-].
Qed.

Lemma add_url_contiguous (u : string) (nm : option string) (m : Monitor) :
  ids_contiguous (urls m) -> ids_contiguous (urls (add_url u nm m)).
Proof.
  intros Hm i t. simpl. rewrite lookup_snoc_Some.
  intros [[_ Hi]|[-> <-]]; [now apply Hm | reflexivity].
Qed.

Lemma remove_url_contiguous (url_id : Z) (m : Monitor) :
  ids_contiguous (urls m) -> ids_contiguous (urls (remove_url url_id m)).
Proof.
  intros Hm. unfold remove_url. destruct (target_at _ _); [|exact Hm].
  apply update_ids_contiguous.
Qed.

Lemma step_contiguous (e : Event) (m : Monitor) :
  ids_contiguous (urls m) -> ids_contiguous (urls (step e m)).
Proof.
  destruct e; simpl.
  - apply add_url_contiguous.
  - apply remove_url_contiguous.
  - unfold start_monitoring. now destruct (_ && _)%bool.
  - trivial.
  - now rewrite monitor_body_urls.
Qed.

Lemma ids_contiguous_seq (l : list Target) :
  ids_contiguous l -> map id l = seq 0 (length l).
Proof.
  intros Hl. apply list_eq. intros i.
  rewrite list_lookup_fmap.
  destruct (l !! i) as [t|] eqn:E; simpl.
  - rewrite (Hl i t E). symmetry. apply lookup_seq_lt.
    now apply lookup_lt_Some in E.
  - symmetry. apply lookup_seq_ge. now apply lookup_ge_None in E.
Qed.

(** C4. After every sequence of [add_url] and [remove_url] calls on a
    fresh monitor (and whatever the lifecycle calls and probes in between)
    the ids of the targets listed are [0 .. n-1] in the order of the list:
    every target's id is its position. *)
Theorem ids_contiguous_always (es : list Event) :
  let l := urls (run es init) in
  map id l = seq 0 (length l) /\
  forall i, i < length l -> exists t, l !! i = Some t /\ id t = i.
Proof.
  cbv zeta.
  assert (H : ids_contiguous (urls (run es init))).
  { apply (run_invariant (fun m => ids_contiguous (urls m))).
    - intros i t. simpl. now rewrite lookup_nil.
    - apply step_contiguous. }
  split; [now apply ids_contiguous_seq|].
  intros i Hi. destruct (lookup_lt_is_Some_2 _ _ Hi) as [t Ht].
  exists t. split; [exact Ht | now apply H].
Qed.

Lemma ids_contiguous_always_witness :
  exists t,
    urls (run [EvAdd "a" None; EvAdd "b" None; EvAdd "c" None; EvRemove 0%Z] init) !! 1
    = Some t /\ id t = 1.
Proof.
  apply (proj2 (ids_contiguous_always
                  [EvAdd "a" None; EvAdd "b" None; EvAdd "c" None; EvRemove 0%Z])).
  vm_compute. lia.
Defined.

Lemma target_at_out_of_range (url_id : Z) (l : list Target) :
  (url_id < 0 \/ Z.of_nat (length l) <= url_id)%Z -> target_at url_id l = None.
Proof.
  intros H. unfold target_at.
  destruct (0 <=? url_id)%Z eqn:E1, (url_id <? Z.of_nat (length l))%Z eqn:E2;
    simpl; try reflexivity; lia.
Qed.

Lemma target_at_in_range (k : nat) (l : list Target) :
  k < length l -> target_at (Z.of_nat k) l = l !! k.
Proof.
  intros H. unfold target_at.
  assert ((0 <=? Z.of_nat k)%Z = true) as -> by lia.
  assert ((Z.of_nat k <? Z.of_nat (length l))%Z = true) as -> by lia.
  simpl. now rewrite Nat2Z.id.
Qed.

Lemma target_at_Some (url_id : Z) (l : list Target) (t : Target) :
  target_at url_id l = Some t ->
  (0 <= url_id < Z.of_nat (length l))%Z /\ l !! Z.to_nat url_id = Some t.
Proof.
  unfold target_at.
  destruct (0 <=? url_id)%Z eqn:E1, (url_id <? Z.of_nat (length l))%Z eqn:E2;
    simpl; try discriminate.
  intros H. split; [lia | exact H].
Qed.

Lemma remove_url_at (k : nat) (m : Monitor) (t : Target) :
  urls m !! k = Some t ->
  remove_url (Z.of_nat k) m
  = {| urls := update_ids (delete k (urls m));
       status_data := delete (url t) (status_data m);
       monitoring := monitoring m;
       monitor_thread := monitor_thread m |}.
Proof.
  intros Ht. unfold remove_url.
  rewrite target_at_in_range by now apply lookup_lt_Some in Ht.
  now rewrite Ht, Nat2Z.id.
Qed.

(** C5. [remove_url] with an id outside [0, length) changes nothing of
    the monitor; with a valid id it removes the target at that position,
    deletes the state kept under that target's url, so that no state is
    retrievable for it, and leaves the other targets in their order, each
    with its new position as id: those before the removed one where they
    were, those after it one position lower. *)
Theorem remove_url_spec (m : Monitor) (url_id : Z) :
  ((url_id < 0 \/ Z.of_nat (length (urls m)) <= url_id)%Z ->
     remove_url url_id m = m) /\
  (forall k : nat, url_id = Z.of_nat k -> k < length (urls m) ->
     exists t, urls m !! k = Some t /\
       let m' := remove_url url_id m in
       length (urls m') = length (urls m) - 1 /\
       (forall j t', j < k -> urls m !! j = Some t' ->
          urls m' !! j = Some {| url := url t'; name := name t'; id := j |}) /\
       (forall j t', k < j -> urls m !! j = Some t' ->
          urls m' !! (j - 1)
          = Some {| url := url t'; name := name t'; id := j - 1 |}) /\
       status_data m' = delete (url t) (status_data m) /\
       status_data m' !! url t = None /\
       monitoring m' = monitoring m /\
       monitor_thread m' = monitor_thread m).
Proof.
  split.
  - intros H. unfold remove_url. now rewrite target_at_out_of_range.
  - intros k -> Hk. destruct (lookup_lt_is_Some_2 _ _ Hk) as [t Ht].
    exists t. split; [exact Ht|]. cbv zeta.
    rewrite (remove_url_at k m t Ht). simpl.
    split; [|split; [|split; [|split; [|split; [|split]]]]]; try reflexivity.
    + unfold update_ids. rewrite length_imap, length_delete by eauto. reflexivity.
    + intros j t' Hj Ht'. unfold update_ids.
      rewrite list_lookup_imap, list_lookup_delete_lt, Ht' by assumption.
      reflexivity.
    + intros j t' Hj Ht'. unfold update_ids.
      rewrite list_lookup_imap, list_lookup_delete_ge by lia.
      replace (S (j - 1)) with j by lia. rewrite Ht'. reflexivity.
    + apply lookup_delete_eq.
Qed.

(** Scenario D on the code, through the theorem: three targets, the one
    with id 1 removed. *)
Lemma remove_url_spec_witness :
  remove_url 7 three_targets = three_targets /\
  exists t, urls three_targets !! 1 = Some t /\
    urls (remove_url 1 three_targets) !! 0
    = Some {| url := "https://a.example"; name := "A"; id := 0 |} /\
    urls (remove_url 1 three_targets) !! 1
    = Some {| url := "https://c.example"; name := "https://c.example"; id := 1 |} /\
    length (urls (remove_url 1 three_targets)) = 2 /\
    status_data (remove_url 1 three_targets) !! url t = None.
Proof.
  split.
  - apply (proj1 (remove_url_spec three_targets 7)). right. vm_compute. discriminate.
  - destruct (proj2 (remove_url_spec three_targets 1) 1 eq_refl) as (t & Ht & H).
    + vm_compute. lia.
    + cbv zeta in H. destruct H as (Hlen & Hlow & Hhigh & _ & Hgone & _).
      exists t. split; [exact Ht|].
      split; [exact (Hlow 0 _ (le_n 1) eq_refl)|].
      split; [exact (Hhigh 2 _ (le_n 2) eq_refl)|].
      split; [exact Hlen | exact Hgone].
Defined.

Example scenario_D :
  urls (remove_url 1 three_targets)
  = [ {| url := "https://a.example"; name := "A"; id := 0 |};
      {| url := "https://c.example"; name := "https://c.example"; id := 1 |} ] /\
  status_data (remove_url 1 three_targets) !! "https://b.example" = None /\
  serve_history_json 2 (remove_url 1 three_targets) = SendError 404.
Proof. vm_compute. repeat split. Qed.

(** ** History lookup by id *)

(** C6, as stated, fails: for an id that is no index of the registry the
    handler answers with the error 404, not with an empty list. *)
Lemma invalid_id_is_not_found :
  target_at 0 (urls init) = None /\
  serve_history_json 0 init = SendError 404 /\
  serve_history_json 0 init <> Json200 [] /\
  serve_history_json (-1) three_targets = SendError 404 /\
  serve_history_json 3 three_targets = SendError 404.
Proof. repeat split; try reflexivity; discriminate. Qed.

(** C6, amended.  For an id that is no index of the registry
    [serve_history_json] answers with the error 404; for a valid id it
    answers with the history kept under the url of the target at that
    position, oldest entry first, and with the empty list when no state
    is kept under that url. *)
Theorem serve_history_json_spec (m : Monitor) (url_id : Z) :
  ((url_id < 0 \/ Z.of_nat (length (urls m)) <= url_id)%Z ->
     serve_history_json url_id m = SendError 404) /\
  (forall (k : nat) (t : Target), url_id = Z.of_nat k -> urls m !! k = Some t ->
     (forall st, status_data m !! url t = Some st ->
        serve_history_json url_id m = Json200 (history st)) /\
     (status_data m !! url t = None ->
        serve_history_json url_id m = Json200 [])).
Proof.
  split.
  - intros H. unfold serve_history_json. now rewrite target_at_out_of_range.
  - intros k t -> Ht. unfold serve_history_json.
    rewrite target_at_in_range by now apply lookup_lt_Some in Ht.
    rewrite Ht. split.
    + intros st Hst. now rewrite Hst.
    + intros Hst. now rewrite Hst.
Qed.

Lemma serve_history_json_spec_witness :
  serve_history_json 5 three_targets = SendError 404 /\
  serve_history_json 1 three_targets = Json200 [] /\
  serve_history_json 0 (remove_url 3 (add_url "https://a.example" None three_targets))
  = Json200 [].
Proof.
  split; [|split].
  - apply (proj1 (serve_history_json_spec three_targets 5)). right. vm_compute. discriminate.
  - apply (proj1 (proj2 (serve_history_json_spec three_targets 1) 1
                    {| url := "https://b.example"; name := "B"; id := 1 |}
                    eq_refl eq_refl) initial_state).
    vm_compute. reflexivity.
  - apply (proj2 (proj2 (serve_history_json_spec
                    (remove_url 3 (add_url "https://a.example" None three_targets)) 0) 0
                    {| url := "https://a.example"; name := "A"; id := 0 |}
                    eq_refl eq_refl)).
    vm_compute. reflexivity.
Defined.

(** ** Lifecycle *)

Lemma monitor_eta (m : Monitor) :
  {| urls := urls m; status_data := status_data m;
     monitoring := monitoring m; monitor_thread := monitor_thread m |} = m.
Proof. now destruct m. Qed.

(** C7. [start_monitoring] on a monitor that is already running, or whose
    registry is empty, changes nothing and starts nothing; on an idle
    monitor with a target it sets [monitoring], keeps registry and states,
    and starts the worker thread; and these are the only calls after which
    a thread has been started or [monitoring] has gone from false to
    true. *)
Theorem start_monitoring_spec (m : Monitor) :
  ((monitoring m = true \/ urls m = []) -> start_monitoring m = (m, [])) /\
  (monitoring m = false -> urls m <> [] ->
     start_monitoring m
     = ({| urls := urls m; status_data := status_data m;
           monitoring := true; monitor_thread := Some MonitorThread |},
        [StartThread])) /\
  (snd (start_monitoring m) <> [] -> monitoring m = false /\ urls m <> []) /\
  (monitoring m = false -> monitoring (fst (start_monitoring m)) = true ->
     urls m <> []).
Proof.
  unfold start_monitoring. split; [|split; [|split]].
  - intros [H|H]; rewrite H; [reflexivity|].
    rewrite bool_decide_eq_false_2 by (intros Hne; now apply Hne).
    now rewrite andb_false_r.
  - intros Hmon Hne. rewrite Hmon, bool_decide_eq_true_2 by assumption. reflexivity.
  - destruct (monitoring m); simpl; [intros Hs; now contradiction Hs|].
    case_bool_decide; simpl; [intros _; now split | intros Hs; now contradiction Hs].
  - intros Hmon. rewrite Hmon. simpl.
    case_bool_decide; simpl; [intros _; assumption | rewrite Hmon; discriminate].
Qed.

Lemma start_monitoring_spec_witness :
  start_monitoring init = (init, []) /\
  start_monitoring (fst (start_monitoring three_targets))
  = (fst (start_monitoring three_targets), []) /\
  monitoring (fst (start_monitoring three_targets)) = true /\
  snd (start_monitoring three_targets) = [StartThread].
Proof.
  split; [|split].
  - apply (proj1 (start_monitoring_spec init)). right. reflexivity.
  - apply (proj1 (start_monitoring_spec (fst (start_monitoring three_targets)))).
    left. reflexivity.
  - rewrite (proj1 (proj2 (start_monitoring_spec three_targets)) eq_refl);
      [split; reflexivity | discriminate].
Defined.

(** C8. [stop_monitoring] raises nothing and leaves the monitor idle;
    called a second time it leaves the state the first call left; and on
    a monitor that is idle already it changes nothing. *)
Theorem stop_monitoring_idempotent (m : Monitor) :
  let m1 := fst (stop_monitoring m) in
  let m2 := fst (stop_monitoring m1) in
  monitoring m1 = false /\
  m2 = m1 /\
  urls m1 = urls m /\ status_data m1 = status_data m /\
  (monitoring m = false -> m1 = m).
Proof.
  cbv zeta. simpl. repeat split.
  intros H. rewrite <- H. apply monitor_eta.
Qed.

Lemma stop_monitoring_idempotent_witness :
  fst (stop_monitoring three_targets) = three_targets.
Proof.
  apply (proj2 (proj2 (proj2 (proj2 (stop_monitoring_idempotent three_targets))))).
  reflexivity.
Defined.

(** ** What a history entry holds *)

Lemma append_history_last (h : list HistoryEntry) (e : HistoryEntry) :
  last (append_history h e) = Some e.
Proof.
  unfold append_history. destruct h as [|a h]; [reflexivity|].
  destruct (50 <? length ((a :: h) ++ [e])); [simpl|]; apply last_snoc.
Qed.

(** C9, as stated, fails: the entry that a probe leaves in the history
    does not hold the error message of the probe.  Two probes that differ
    in their error message only leave the same entry, so nothing read from
    the entry is that message. *)
Lemma history_entry_has_no_error : ~ history_carries_error.
Proof.
  intros [error_of H].
  pose (m0 := add_url "u" None init).
  assert (Hm0 : status_data m0 !! "u" = Some initial_state) by apply lookup_insert_eq.
  destruct (H timed_out "u" m0 _ (monitor_body_known _ _ _ _ Hm0))
    as (st1 & e1 & Hst1 & He1 & Herr1).
  destruct (H refused "u" m0 _ (monitor_body_known _ _ _ _ Hm0))
    as (st2 & e2 & Hst2 & He2 & Herr2).
  simpl in Hst1, Hst2. rewrite lookup_insert_eq in Hst1, Hst2.
  injection Hst1 as <-. injection Hst2 as <-.
  rewrite record_result_history, append_history_last in He1, He2.
  injection He1 as <-. injection He2 as <-.
  vm_compute in Herr1, Herr2.
  rewrite Herr1 in Herr2. discriminate Herr2.
Qed.

(** C9, amended.  Every entry the scheduler appends to a history holds the
    timestamp taken for it and the status, the response time and the
    status code, if any, of the probe; it holds no error message, and
    these entries are what [serve_history_json] sends for a target with
    that url.  The error message of the probe is stored in the current
    state of the url only, as the probe leaves that state. *)
Theorem history_entry_fields
  (o : Observation) (u : string) (m : Monitor) (st : TargetState) :
  status_data m !! u = Some st ->
  let r := check_url (attempt o) in
  exists m' st' e,
    monitor_body o u m = (m', None) /\
    status_data m' !! u = Some st' /\
    last (history st') = Some e /\
    e = {| h_timestamp := history_now o;
           h_status := res_status r;
           h_response_time := res_response_time r;
           h_status_code := res_status_code r |} /\
    status st' = res_status r /\
    response_time st' = res_response_time r /\
    status_code st' = res_status_code r /\
    error st' = res_error r /\
    last_check st' = Some (last_check_now o) /\
    (forall (k : nat) (t : Target),
        urls m !! k = Some t -> url t = u ->
        serve_history_json (Z.of_nat k) m' = Json200 (history st')).
Proof.
  intros Hst r.
  eexists _, (record_result o st), (history_entry (history_now o) r).
  split; [exact (monitor_body_known o u m st Hst)|].
  split; [simpl; apply lookup_insert_eq|].
  split; [rewrite record_result_history; apply append_history_last|].
  do 6 (split; [reflexivity|]).
  intros k t Hk Hu. unfold serve_history_json. simpl.
  rewrite target_at_in_range by now apply lookup_lt_Some in Hk.
  rewrite Hk, Hu, lookup_insert_eq. reflexivity.
Qed.

Lemma history_entry_fields_witness :
  exists m' st' e,
    monitor_body refused "https://a.example" (add_url "https://a.example" None init)
    = (m', None) /\
    status_data m' !! "https://a.example" = Some st' /\
    last (history st') = Some e /\
    h_status e = Down /\ h_status_code e = None /\
    error st' = Some "URL Error: [Errno 111] Connection refused" /\
    serve_history_json 0 m' = Json200 (history st').
Proof.
  destruct (history_entry_fields refused "https://a.example"
              (add_url "https://a.example" None init) initial_state)
    as (m' & st' & e & Hrun & Hst & Hlast & He & _ & _ & _ & Herr & _ & Hserve).
  - vm_compute. reflexivity.
  - exists m', st', e.
    split; [exact Hrun|]. split; [exact Hst|]. split; [exact Hlast|].
    rewrite He, Herr. do 3 (split; [reflexivity|]).
    apply (Hserve 0 {| url := "https://a.example"; name := "https://a.example"; id := 0 |});
      reflexivity.
Defined.

(** ** Targets with the same url *)

(** C10. The state store is keyed by url, so two targets with the same url
    have one state between them.  [add_url] of a url that a target of the
    registry already has appends a target with a new id and puts the
    initial state under the url, whatever was kept there; and when two
    targets have the same url, [remove_url] of either deletes the state
    under that url while the other target stays in the registry, with no
    state to be retrieved for it. *)
Theorem duplicate_urls_share_state (m : Monitor) (u : string) :
  (forall (nm : option string) (t : Target),
      t ∈ urls m -> url t = u -> ids_contiguous (urls m) ->
      let m' := add_url u nm m in
      exists t',
        urls m' = urls m ++ [t'] /\
        url t' = u /\
        (forall t0, t0 ∈ urls m -> id t0 <> id t') /\
        status_data m' !! u = Some initial_state) /\
  (forall (i j : nat) (ti tj : Target),
      i <> j -> urls m !! i = Some ti -> urls m !! j = Some tj ->
      url ti = u -> url tj = u ->
      let m' := remove_url (Z.of_nat i) m in
      status_data m' !! u = None /\
      exists j' t',
        urls m' !! j' = Some t' /\ url t' = u /\ name t' = name tj /\
        serve_history_json (Z.of_nat j') m' = Json200 []).
Proof.
  split.
  - intros nm t Ht Hu Hids. cbv zeta.
    eexists. split; [reflexivity|]. split; [reflexivity|].
    split; [|simpl; apply lookup_insert_eq].
    intros t0 [k Hk]%list_elem_of_lookup. simpl.
    rewrite (Hids k t0 Hk). apply lookup_lt_Some in Hk. lia.
  - intros i j ti tj Hij Hi Hj Hui Huj. cbv zeta.
    rewrite (remove_url_at i m ti Hi). simpl.
    assert (Hgone : delete (url ti) (status_data m) !! u = None).
    { rewrite Hui. apply lookup_delete_eq. }
    split; [exact Hgone|].
    set (j' := if decide (j < i) then j else j - 1).
    assert (Hj' : update_ids (delete i (urls m)) !! j'
                  = Some {| url := url tj; name := name tj; id := j' |}).
    { unfold update_ids, j'. rewrite list_lookup_imap. case_decide.
      - rewrite list_lookup_delete_lt, Hj by assumption. reflexivity.
      - rewrite list_lookup_delete_ge by lia.
        replace (S (j - 1)) with j by lia. rewrite Hj. reflexivity. }
    exists j', {| url := url tj; name := name tj; id := j' |}.
    split; [exact Hj'|]. split; [exact Huj|]. split; [reflexivity|].
    unfold serve_history_json. simpl.
    rewrite target_at_in_range by now apply lookup_lt_Some in Hj'.
    rewrite Hj'. simpl. rewrite Huj, Hgone. reflexivity.
Qed.

Lemma duplicate_urls_share_state_witness :
  status_data twice_registered !! "https://a.example" = Some initial_state /\
  status_data (remove_url 1 twice_registered) !! "https://a.example" = None /\
  status_data (remove_url 0 twice_registered) !! "https://a.example" = None.
Proof.
  pose (before := fst (monitor_body timed_out "https://a.example"
                         (add_url "https://a.example" (Some "A") init))).
  pose (a0 := {| url := "https://a.example"; name := "A"; id := 0 |}).
  pose (a1 := {| url := "https://a.example"; name := "again"; id := 1 |}).
  split; [|split].
  - destruct (proj1 (duplicate_urls_share_state before "https://a.example")
                (Some "again") a0) as (t' & _ & _ & _ & Hst).
    + vm_compute. apply list_elem_of_here.
    + reflexivity.
    + intros [|[|k]] t; vm_compute; intros [= <-]; reflexivity.
    + exact Hst.
  - apply (proj2 (duplicate_urls_share_state twice_registered "https://a.example")
             1 0 a1 a0); [lia | reflexivity..].
  - apply (proj2 (duplicate_urls_share_state twice_registered "https://a.example")
             0 1 a0 a1); [lia | reflexivity..].
Defined.

(** What follows for the scheduler: with the state of the surviving
    target gone, the next cycle ends the worker with a [KeyError]. *)
Example cycle_after_duplicate_removed :
  snd (monitor_urls [fun _ => timed_out]
         (fst (start_monitoring (remove_url 1 twice_registered))))
  = Raised (KeyError "https://a.example").
Proof. vm_compute. reflexivity. Qed.

(** What the duplicate discarded: the first target had been probed. *)
Example state_before_duplicate :
  (fun st => (status st, length (history st)))
    <$> status_data (fst (monitor_body timed_out "https://a.example"
                            (add_url "https://a.example" (Some "A") init)))
        !! "https://a.example"
  = Some (Down, 1).
Proof. vm_compute. reflexivity. Qed.

(** ** Further properties of the prober *)

(** X9. Read back from a result of [check_url]: it has an error message
    exactly when its status is [Down]; its status is never [Unknown]; an
    [Up] result has a status code in [200, 400) and a [Warning] result has
    a status code outside of it. *)
Theorem check_url_result_readback (a : Attempt) :
  let r := check_url a in
  (res_status r = Down <-> is_Some (res_error r)) /\
  res_status r <> Unknown /\
  (res_status r = Up ->
     exists c, res_status_code r = Some c /\ (200 <= c < 400)%Z) /\
  (res_status r = Warning ->
     exists c, res_status_code r = Some c /\ ~ (200 <= c < 400)%Z).
Proof.
  cbv zeta. unfold check_url.
  destruct (outcome a) as [[c|]|c reason|reason|msg]; simpl.
  2-5: repeat split; eauto; try discriminate.
  destruct (200 <=? c)%Z eqn:E1, (c <? 400)%Z eqn:E2; simpl;
    (split; [split; [discriminate | intros [x Hx]; discriminate]|]);
    (split; [discriminate|]);
    (split; intros H; try discriminate H; exists c; split; [reflexivity|lia]).
Qed.

Lemma check_url_result_readback_witness :
  exists c, res_status_code (check_url (mkAttempt (Responded (Some 301%Z)) 0 1)) = Some c /\
            (200 <= c < 400)%Z.
Proof.
  apply (proj1 (proj2 (proj2
           (check_url_result_readback (mkAttempt (Responded (Some 301%Z)) 0 1))))).
  reflexivity.
Defined.


(** ** Further properties of the scheduler *)

Lemma monitor_body_dom (o : Observation) (u : string) (m : Monitor) :
  dom (status_data (fst (monitor_body o u m))) = dom (status_data m).
Proof.
  unfold monitor_body. destruct (status_data m !! u) as [st|] eqn:E; [|reflexivity].
  simpl. apply dom_insert_lookup_L. now exists st.
Qed.

Lemma monitor_body_is_Some (o : Observation) (u v : string) (m : Monitor) :
  is_Some (status_data (fst (monitor_body o u m)) !! v) <-> is_Some (status_data m !! v).
Proof. rewrite <- !elem_of_dom. now rewrite monitor_body_dom. Qed.

(** X1. One run of the loop body for the url [u] changes nothing but the
    state kept under [u]: the registry, the running flag and the thread
    are as before, the state of every other url is as before, and no
    state is created or deleted. *)
Theorem monitor_body_frame (o : Observation) (u : string) (m : Monitor) :
  let m' := fst (monitor_body o u m) in
  urls m' = urls m /\
  monitoring m' = monitoring m /\
  monitor_thread m' = monitor_thread m /\
  dom (status_data m') = dom (status_data m) /\
  (forall v, v <> u -> status_data m' !! v = status_data m !! v).
Proof.
  cbv zeta. split; [apply monitor_body_urls|].
  split; [|split; [|split; [apply monitor_body_dom|]]].
  1-2: unfold monitor_body; now destruct (status_data m !! u).
  intros v Hv. unfold monitor_body. destruct (status_data m !! u); [|reflexivity].
  simpl. now apply lookup_insert_ne.
Qed.

Lemma monitor_body_frame_witness :
  status_data (fst (monitor_body timed_out "https://a.example" three_targets))
    !! "https://b.example"
  = status_data three_targets !! "https://b.example".
Proof.
  apply (proj2 (proj2 (proj2 (proj2
           (monitor_body_frame timed_out "https://a.example" three_targets))))).
  discriminate.
Defined.

Lemma for_urls_raises (obs : nat -> Observation) (l : list Target) :
  forall (i : nat) (m : Monitor),
    (snd (for_urls obs i l m) = None <-> all_have_state l m) /\
    (forall e, snd (for_urls obs i l m) = Some e ->
       exists k t,
         l !! k = Some t /\ e = KeyError (url t) /\
         status_data m !! url t = None /\
         forall j t', j < k -> l !! j = Some t' ->
                      is_Some (status_data m !! url t')).
Proof.
  induction l as [|t l IH]; intros i m.
  - simpl. split; [split; [intros _ t Ht; inversion Ht | reflexivity]|].
    intros e He. discriminate He.
  - simpl.
    destruct (status_data m !! url t) as [st|] eqn:E.
    + rewrite (monitor_body_known _ _ _ _ E).
      set (m1 := {| urls := urls m;
                    status_data := <[url t := record_result (obs i) st]> (status_data m);
                    monitoring := monitoring m;
                    monitor_thread := monitor_thread m |}).
      assert (Hm1 : m1 = fst (monitor_body (obs i) (url t) m)).
      { unfold monitor_body. now rewrite E. }
      destruct (IH (S i) m1) as [IH1 IH2]. split.
      * rewrite IH1. split.
        -- intros H t0 [->|Ht0]%elem_of_cons; [now exists st|].
           apply (monitor_body_is_Some (obs i) (url t)). rewrite <- Hm1. now apply H.
        -- intros H t0 Ht0. rewrite Hm1. apply monitor_body_is_Some.
           apply H. now right.
      * intros e He. destruct (IH2 e He) as (k & t0 & Hk & -> & Hnone & Hbefore).
        exists (S k), t0. split; [exact Hk|]. split; [reflexivity|]. split.
        -- destruct (status_data m !! url t0) as [st0|] eqn:E0; [|reflexivity].
           assert (is_Some (status_data m1 !! url t0)) as [x Hx].
           { rewrite Hm1. apply monitor_body_is_Some. now exists st0. }
           rewrite Hx in Hnone. discriminate.
        -- intros [|j] t' Hj Ht'.
           ++ simpl in Ht'. injection Ht' as <-. now exists st.
           ++ simpl in Ht'. apply (monitor_body_is_Some (obs i) (url t)).
              rewrite <- Hm1. apply (Hbefore j); [lia | exact Ht'].
    + rewrite (monitor_body_unknown _ _ _ E). simpl. split.
      * split; [discriminate|]. intros H.
        destruct (H t) as [x Hx]; [now left|]. rewrite Hx in E. discriminate.
      * intros e [= <-]. exists 0, t. split; [reflexivity|]. split; [reflexivity|].
        split; [exact E|]. intros j t' Hj. lia.
Qed.

(** X2. A cycle of the scheduler ends without an exception exactly when
    every target of the registry has a state under its url; otherwise the
    exception is the [KeyError] for the url of the first target, in the
    order of the registry, that has none. *)
Theorem monitor_cycle_raises (obs : nat -> Observation) (m : Monitor) :
  (snd (monitor_cycle obs m) = None <-> all_have_state (urls m) m) /\
  (forall e, snd (monitor_cycle obs m) = Some e ->
     exists k t,
       urls m !! k = Some t /\ e = KeyError (url t) /\
       status_data m !! url t = None /\
       forall j t', j < k -> urls m !! j = Some t' ->
                    is_Some (status_data m !! url t')).
Proof. unfold monitor_cycle. apply for_urls_raises. Qed.

Lemma monitor_cycle_raises_witness :
  snd (monitor_cycle (fun _ => timed_out) three_targets) = None /\
  exists k t,
    urls (remove_url 1 twice_registered) !! k = Some t /\
    status_data (remove_url 1 twice_registered) !! url t = None.
Proof.
  split.
  - apply (proj1 (monitor_cycle_raises (fun _ => timed_out) three_targets)).
    intros t Ht. vm_compute in Ht.
    repeat (apply elem_of_cons in Ht as [->|Ht]); try (vm_compute; eauto).
    inversion Ht.
  - destruct (proj2 (monitor_cycle_raises (fun _ => timed_out)
                       (remove_url 1 twice_registered))
                (KeyError "https://a.example") eq_refl)
      as (k & t & Hk & _ & Hnone & _).
    exists k, t. split; [exact Hk | exact Hnone].
Defined.

(** ** Further properties of the registry and the state store *)


Lemma run_ids_contiguous (es : list Event) : ids_contiguous (urls (run es init)).
Proof.
  apply (run_invariant (fun m => ids_contiguous (urls m))).
  - intros i t. simpl. now rewrite lookup_nil.
  - apply step_contiguous.
Qed.


Lemma update_ids_urls (l : list Target) : url <$> update_ids l = url <$> l.
Proof.
  apply list_eq. intros i. unfold update_ids.
  rewrite !list_lookup_fmap, list_lookup_imap. now destruct (l !! i).
Qed.

Lemma update_ids_id (l : list Target) : ids_contiguous l -> update_ids l = l.
Proof.
  intros Hl. apply list_eq. intros i. unfold update_ids.
  rewrite list_lookup_imap. destruct (l !! i) as [t|] eqn:E; [|reflexivity].
  simpl. rewrite <- (Hl i t E). now destruct t.
Qed.

Lemma registered_alt (u : string) (m : Monitor) :
  registered u m <-> u ∈ url <$> urls m.
Proof.
  unfold registered. rewrite list_elem_of_fmap. split.
  - intros (t & Ht & <-). now exists t.
  - intros (t & -> & Ht). now exists t.
Qed.

Lemma remove_url_Some (url_id : Z) (m : Monitor) (t : Target) :
  target_at url_id (urls m) = Some t ->
  remove_url url_id m
  = {| urls := update_ids (delete (Z.to_nat url_id) (urls m));
       status_data := delete (url t) (status_data m);
       monitoring := monitoring m;
       monitor_thread := monitor_thread m |}.
Proof. intros H. unfold remove_url. now rewrite H. Qed.

(** Removing position [k] keeps the urls at all other positions. *)
Lemma delete_keeps_url (k j : nat) (l : list Target) (t : Target) :
  j <> k -> l !! j = Some t -> url t ∈ url <$> update_ids (delete k l).
Proof.
  intros Hjk Hj. rewrite update_ids_urls, list_fmap_delete.
  apply list_elem_of_lookup.
  destruct (decide (j < k)).
  - exists j. rewrite list_lookup_delete_lt, list_lookup_fmap, Hj by assumption.
    reflexivity.
  - exists (j - 1). rewrite list_lookup_delete_ge by lia.
    replace (S (j - 1)) with j by lia. now rewrite list_lookup_fmap, Hj.
Qed.

Lemma step_no_orphans (e : Event) (m : Monitor) :
  (forall u, is_Some (status_data m !! u) -> registered u m) ->
  forall u, is_Some (status_data (step e m) !! u) -> registered u (step e m).
Proof.
  intros Hm u. destruct e as [v nm|url_id| | |o v]; simpl.
  - rewrite registered_alt. simpl. rewrite fmap_app, elem_of_app. simpl.
    rewrite lookup_insert. case_decide as Hv.
    + intros _. right. subst. apply list_elem_of_here.
    + intros H. left. apply registered_alt. now apply Hm.
  - destruct (target_at url_id (urls m)) as [t|] eqn:E.
    + rewrite (remove_url_Some _ _ _ E), registered_alt. simpl.
      rewrite lookup_delete. case_decide as Hu; [intros [x Hx]; discriminate|].
      intros H. destruct (Hm u H) as (t0 & [j Hj]%list_elem_of_lookup & <-).
      apply target_at_Some in E as [_ E].
      apply (delete_keeps_url (Z.to_nat url_id) j); [|exact Hj].
      intros ->. rewrite Hj in E. injection E as ->. now apply Hu.
    + unfold remove_url. rewrite E. apply Hm.
  - unfold start_monitoring. destruct (_ && _)%bool; apply Hm.
  - apply Hm.
  - rewrite monitor_body_is_Some. intros H.
    destruct (Hm u H) as (t & Ht & Hu). exists t.
    rewrite monitor_body_urls. now split.
Qed.

(** X3. The state store never keeps a state for a url that no target of
    the registry has: after every run of calls and probes from a fresh
    monitor, every key of [status_data] is the url of a registered
    target. *)
Theorem no_orphan_state (es : list Event) (u : string) :
  is_Some (status_data (run es init) !! u) -> registered u (run es init).
Proof.
  revert u.
  apply (run_invariant (fun m => forall u, is_Some (status_data m !! u) -> registered u m)).
  - intros u. simpl. rewrite lookup_empty. intros [x Hx]. discriminate.
  - apply step_no_orphans.
Qed.

Lemma no_orphan_state_witness :
  registered "https://a.example"
    (run [EvAdd "https://a.example" None; EvAdd "https://a.example" (Some "again");
          EvAdd "https://b.example" None; EvRemove 2] init).
Proof.
  apply no_orphan_state. vm_compute. eauto.
Defined.

(** X5. Adding a url that has no state and then removing the target just
    added (the one at the last position) gives back the monitor as it
    was, in every state that calls and probes can reach. *)
Theorem add_then_remove (es : list Event) (u : string) (nm : option string) :
  let m := run es init in
  status_data m !! u = None ->
  remove_url (Z.of_nat (length (urls m))) (add_url u nm m) = m.
Proof.
  intros m Hu.
  pose proof (run_ids_contiguous es) as Hids. fold m in Hids.
  set (t := {| url := u; name := match nm with None => u | Some n => n end;
               id := length (urls m) |}).
  rewrite (remove_url_at (length (urls m)) (add_url u nm m) t).
  2: { simpl. apply list_lookup_middle. reflexivity. }
  simpl. fold t.
  assert (delete (length (urls m)) (urls m ++ [t]) = urls m) as ->.
  { rewrite delete_take_drop, take_app_length.
    rewrite drop_ge by (rewrite length_app; simpl; lia). apply app_nil_r. }
  rewrite update_ids_id by exact Hids.
  rewrite delete_insert_eq, delete_id by exact Hu.
  apply monitor_eta.
Qed.

Lemma add_then_remove_witness :
  remove_url 2 (add_url "https://c.example" None
                  (run [EvAdd "https://a.example" None; EvAdd "https://b.example" None] init))
  = run [EvAdd "https://a.example" None; EvAdd "https://b.example" None] init.
Proof.
  apply (add_then_remove [EvAdd "https://a.example" None; EvAdd "https://b.example" None]
           "https://c.example" None).
  vm_compute. reflexivity.
Defined.







(** The run in which a target is removed while its probe is in flight:
    the loop body that follows raises the [KeyError]. *)
Example probe_after_removal :
  adds_fresh [EvAdd "https://a.example" None; EvStart; EvRemove 0] init = true /\
  snd (monitor_body refused "https://a.example"
         (run [EvAdd "https://a.example" None; EvStart; EvRemove 0] init))
  = Some (KeyError "https://a.example").
Proof. split; vm_compute; reflexivity. Qed.






Lemma entries_for_length (u : string) (obs : nat -> Observation) (l : list Target) :
  forall i, length (entries_for u obs i l) = length (filter (fun t => url t = u) l).
Proof.
  induction l as [|t l IH]; intros i; [reflexivity|].
  simpl. rewrite filter_cons. destruct (decide (url t = u)); simpl; now rewrite IH.
Qed.

Lemma for_urls_history (obs : nat -> Observation) (u : string) (l : list Target) :
  forall (i : nat) (m m' : Monitor) (st : TargetState),
    for_urls obs i l m = (m', None) ->
    status_data m !! u = Some st ->
    exists st',
      status_data m' !! u = Some st' /\
      history st' = fold_left append_history (entries_for u obs i l) (history st).
Proof.
  induction l as [|t l IH]; intros i m m' st Hrun Hst.
  - injection Hrun as <-. now exists st.
  - simpl in Hrun. destruct (status_data m !! url t) as [st_t|] eqn:E.
    2: { rewrite (monitor_body_unknown _ _ _ E) in Hrun. discriminate. }
    rewrite (monitor_body_known _ _ _ _ E) in Hrun.
    simpl. destruct (decide (url t = u)) as [Heq|Hne].
    + subst u. rewrite Hst in E. injection E as <-.
      destruct (IH _ _ _ (record_result (obs i) st) Hrun) as (st' & Hst' & Hh).
      { simpl. apply lookup_insert_eq. }
      exists st'. split; [exact Hst'|]. now rewrite Hh, record_result_history.
    + destruct (IH _ _ _ st Hrun) as (st' & Hst' & Hh).
      { simpl. now rewrite lookup_insert_ne. }
      exists st'. now split.
Qed.

(** X8. In a cycle over a registry whose targets all have a state, every
    url gets one history entry for each target that has this url, in the
    order of the registry, and its history afterwards is the most recent
    50 of the old entries followed by the new ones; a url registered [k]
    times gets [k] entries per cycle. *)
Theorem monitor_cycle_history (obs : nat -> Observation) (m : Monitor) :
  all_have_state (urls m) m ->
  exists m',
    monitor_cycle obs m = (m', None) /\
    forall u st,
      status_data m !! u = Some st -> length (history st) <= 50 ->
      exists st',
        status_data m' !! u = Some st' /\
        history st' = last_n 50 (history st ++ entries_for u obs 0 (urls m)) /\
        length (entries_for u obs 0 (urls m))
        = length (filter (fun t => url t = u) (urls m)).
Proof.
  intros Hall.
  destruct (monitor_cycle obs m) as [m' e] eqn:Hrun.
  assert (e = None) as ->.
  { change e with (snd (m', e)). rewrite <- Hrun. unfold monitor_cycle.
    now apply for_urls_raises. }
  exists m'. split; [reflexivity|].
  intros u st Hst Hlen.
  destruct (for_urls_history obs u (urls m) 0 m m' st Hrun Hst) as (st' & Hst' & Hh).
  exists st'. split; [exact Hst'|]. split; [|apply entries_for_length].
  rewrite Hh. now apply fold_append_history.
Qed.

Lemma monitor_cycle_history_witness :
  exists m' st',
    monitor_cycle (fun _ => refused) twice_registered = (m', None) /\
    status_data m' !! "https://a.example" = Some st' /\
    length (history st') = 2.
Proof.
  destruct (monitor_cycle_history (fun _ => refused) twice_registered) as (m' & Hrun & H).
  - intros t Ht. vm_compute in Ht.
    repeat (apply elem_of_cons in Ht as [->|Ht]); try (vm_compute; eauto).
    inversion Ht.
  - destruct (H "https://a.example" initial_state) as (st' & Hst' & Hh & _).
    + vm_compute. reflexivity.
    + simpl. lia.
    + exists m', st'. split; [exact Hrun|]. split; [exact Hst'|].
      rewrite Hh. vm_compute. reflexivity.
Defined.

(** ** The routes of the request handler *)

Section RouteFacts.

Import Handler.

Variable py_int : string -> option Z.
Variable add_url_handler : Monitor -> Monitor * Handled.

Lemma split_slash_nonempty (s : string) :
  exists piece pieces, split_slash s = piece :: pieces.
Proof.
  destruct s as [|a s]; simpl; [eauto|].
  destruct (Ascii.eqb a "/"); [eauto|]. destruct (split_slash s); eauto.
Qed.

Lemma split_slash_app (p q : string) :
  split_slash (p +:+ "/" +:+ q) = split_slash p ++ split_slash q.
Proof.
  induction p as [|a p IH]; [reflexivity|].
  simpl. simpl in IH. rewrite IH.
  destruct (Ascii.eqb a "/"); [reflexivity|].
  destruct (split_slash_nonempty p) as (piece & pieces & ->). reflexivity.
Qed.

Lemma split_slash_free (s : string) : slash_free s = true -> split_slash s = [s].
Proof.
  induction s as [|a s IH]; [reflexivity|].
  simpl. intros [Ha Hs]%andb_true_iff. apply negb_true_iff in Ha.
  now rewrite Ha, IH.
Qed.

Lemma endswith_cons (suffix s : string) (a : ascii) :
  endswith suffix s = true -> endswith suffix (String a s) = true.
Proof. intros H. simpl. rewrite H. apply orb_true_r. Qed.

Lemma endswith_app (suffix p : string) : endswith suffix (p +:+ suffix) = true.
Proof.
  induction p as [|a p IH].
  - destruct suffix; simpl; [reflexivity|]. now rewrite Ascii.eqb_refl, String.eqb_refl.
  - now apply endswith_cons.
Qed.

Lemma endswith_app_l (suffix p q : string) :
  endswith suffix q = true -> endswith suffix (p +:+ q) = true.
Proof.
  intros H. induction p as [|a p IH]; [exact H|]. now apply endswith_cons.
Qed.

Lemma from_end_1_snoc {A : Type} (l : list A) (x : A) : from_end 1 (l ++ [x]) = Some x.
Proof.
  unfold from_end. rewrite length_app. simpl length.
  replace (1 <=? length l + 1) with true by (symmetry; apply Nat.leb_le; lia).
  simpl. replace (length l + 1 - 1) with (length l + 0) by lia.
  now rewrite lookup_app_r, Nat.add_0_r, Nat.sub_diag by lia.
Qed.

Lemma from_end_2_snoc {A : Type} (l : list A) (x y : A) :
  from_end 2 (l ++ [x; y]) = Some x.
Proof.
  unfold from_end. rewrite length_app. simpl length.
  replace (2 <=? length l + 2) with true by (symmetry; apply Nat.leb_le; lia).
  simpl. replace (length l + 2 - 2) with (length l + 0) by lia.
  now rewrite lookup_app_r, Nat.add_0_r, Nat.sub_diag by lia.
Qed.

(** X10. [POST /api/urls/<s>/delete], for a piece [s] without a slash
    that [int] accepts as [k], always answers with success and leaves the
    monitor that [remove_url k] leaves: an id outside the registry is
    answered with success too, with the monitor unchanged.  A piece that
    [int] refuses makes the [ValueError] escape the handler, with the
    monitor unchanged and no response sent. *)
Theorem post_delete_route (s : string) (m : Monitor) :
  slash_free s = true ->
  let path := "/api/urls/" +:+ s +:+ "/delete" in
  (forall k, py_int s = Some k ->
     do_POST py_int add_url_handler path m = (remove_url k m, [], Replied Success) /\
     ((k < 0 \/ Z.of_nat (length (urls m)) <= k)%Z ->
        do_POST py_int add_url_handler path m = (m, [], Replied Success))) /\
  (py_int s = None ->
     do_POST py_int add_url_handler path m = (m, [], Escaped (ValueError s))).
Proof.
  intros Hs path.
  assert (Hend : endswith "/delete" path = true).
  { unfold path. apply endswith_app_l, endswith_app. }
  assert (Hsplit : from_end 2 (split_slash path) = Some s).
  { unfold path.
    change ("/api/urls/" +:+ s +:+ "/delete")
      with ("" +:+ "/" +:+ ("api" +:+ "/" +:+ ("urls" +:+ "/" +:+ (s +:+ "/" +:+ "delete")))).
    rewrite !split_slash_app, (split_slash_free s Hs). reflexivity. }
  assert (Hroute : do_POST py_int add_url_handler path m
                   = match py_int s with
                     | None => (m, [], Escaped (ValueError s))
                     | Some url_id => (remove_url url_id m, [], Replied Success)
                     end).
  { assert (Hne : String.eqb path "/api/urls" = false) by reflexivity.
    assert (Hpre : String.prefix "/api/urls/" path = true)
      by (unfold path; destruct s; reflexivity).
    unfold do_POST. rewrite Hne, Hpre, Hend, Hsplit. reflexivity. }
  split.
  - intros k Hk. rewrite Hroute, Hk. split; [reflexivity|].
    intros Hout. unfold remove_url. now rewrite target_at_out_of_range.
  - intros Hnone. now rewrite Hroute, Hnone.
Qed.

Lemma do_GET_history (r : string) (m : Monitor) :
  do_GET py_int ("/api/history/" +:+ r) m
  = match from_end 1 (split_slash ("/api/history/" +:+ r)) with
    | None => Escaped IndexError
    | Some piece =>
        match py_int piece with
        | None => Escaped (ValueError piece)
        | Some url_id => Replied (History (serve_history_json url_id m))
        end
    end.
Proof. destruct r; reflexivity. Qed.

(** X11. [GET /api/history/...] looks at the last piece of the path only:
    whatever stands between the prefix and the last slash, a last piece
    [s] that [int] accepts as [k] is answered with what
    [serve_history_json k] sends, and one that [int] refuses makes the
    [ValueError] escape the handler. *)
Theorem get_history_route (q s : string) (m : Monitor) :
  slash_free s = true ->
  do_GET py_int ("/api/history/" +:+ q +:+ "/" +:+ s) m
  = do_GET py_int ("/api/history/" +:+ s) m /\
  do_GET py_int ("/api/history/" +:+ s) m
  = match py_int s with
    | Some k => Replied (History (serve_history_json k m))
    | None => Escaped (ValueError s)
    end.
Proof.
  intros Hs.
  assert (H1 : from_end 1 (split_slash ("/api/history/" +:+ q +:+ "/" +:+ s)) = Some s).
  { change ("/api/history/" +:+ q +:+ "/" +:+ s)
      with (("/api/history/" +:+ q) +:+ "/" +:+ s) at 1.
    - rewrite split_slash_app, (split_slash_free s Hs). apply from_end_1_snoc. }
  assert (H2 : from_end 1 (split_slash ("/api/history/" +:+ s)) = Some s).
  { change ("/api/history/" +:+ s) with ("/api/history" +:+ "/" +:+ s).
    rewrite split_slash_app, (split_slash_free s Hs). apply from_end_1_snoc. }
  rewrite (do_GET_history (q +:+ "/" +:+ s)), (do_GET_history s), H1, H2.
  split; reflexivity.
Qed.

End RouteFacts.

Lemma post_delete_route_witness :
  Handler.do_POST decimal_int refuse_body "/api/urls/1/delete" three_targets
  = (remove_url 1 three_targets, [], Handler.Replied Handler.Success) /\
  Handler.do_POST decimal_int refuse_body "/api/urls/9/delete" three_targets
  = (three_targets, [], Handler.Replied Handler.Success) /\
  Handler.do_POST decimal_int refuse_body "/api/urls/x/delete" three_targets
  = (three_targets, [], Handler.Escaped (Handler.ValueError "x")).
Proof.
  split; [|split].
  - apply (proj1 (post_delete_route decimal_int refuse_body "1" three_targets eq_refl)).
    reflexivity.
  - apply (proj1 (post_delete_route decimal_int refuse_body "9" three_targets eq_refl) 9%Z);
      [reflexivity | right; vm_compute; discriminate].
  - apply (proj2 (post_delete_route decimal_int refuse_body "x" three_targets eq_refl)).
    reflexivity.
Defined.

Lemma get_history_route_witness :
  Handler.do_GET decimal_int "/api/history/of/any/thing/2" three_targets
  = Handler.do_GET decimal_int "/api/history/2" three_targets.
Proof.
  apply (proj1 (get_history_route decimal_int "of/any/thing" "2" three_targets eq_refl)).
Defined.

(** ** The command line front end *)

Section CliFacts.

Import CliMain.

Variable py_int : string -> option Z.
Variable str_float : Q -> string.
Variable sleep_raises : Z -> bool.

Lemma read_args_app_bounded (n : nat) :
  forall (a b : list string) (st st' : Parse),
    length a <= n ->
    read_args py_int a st = AtEnd st' ->
    read_args py_int (a ++ b) st = read_args py_int b st'.
Proof.
  induction n as [|n IH]; intros a b st st' Hlen H.
  - destruct a; [|simpl in Hlen; lia]. simpl in H. now injection H as ->.
  - destruct a as [|arg rest]; [simpl in H; now injection H as ->|].
    simpl in Hlen. simpl in H |- *.
    destruct (one_of arg "-h" "--help"); [discriminate H|].
    destruct (one_of arg "-u" "--url").
    { destruct rest as [|u rest]; [discriminate H|]. simpl in Hlen |- *.
      apply IH; [lia | exact H]. }
    destruct (one_of arg "-n" "--name").
    { destruct rest as [|x rest]; [discriminate H|]. simpl in Hlen |- *.
      apply IH; [lia | exact H]. }
    destruct (one_of arg "-i" "--interval").
    { destruct rest as [|v rest]; [discriminate H|]. simpl in Hlen |- *.
      destruct (py_int v); [|discriminate H]. apply IH; [lia | exact H]. }
    destruct (one_of arg "-o" "--once"); [apply IH; [lia | exact H]|].
    destruct (one_of arg "-c" "--continuous"); [apply IH; [lia | exact H]|].
    discriminate H.
Qed.

(** Arguments read to their end are read the same way when more
    arguments follow. *)
Lemma read_args_app (a b : list string) (st st' : Parse) :
  read_args py_int a st = AtEnd st' ->
  read_args py_int (a ++ b) st = read_args py_int b st'.
Proof. apply (read_args_app_bounded (length a)). lia. Qed.

(** X12. [main] never ends in a check of an empty registry: when it goes
    on to [check_all_urls] or to [monitor_continuously], the registry has
    a target (the three default ones if the arguments named none), so the
    report of a round starts with its heading and is not the warning that
    there are no URLs. *)
Theorem main_registry_not_empty (args : list string) :
  match snd (main py_int args) with
  | Exit => True
  | CheckAllUrls m | MonitorContinuously m _ =>
      urls m <> [] /\
      forall r, exists heading rest,
        check_all_urls str_float r m
        = Line heading :: Line (str_mul "=" 80) :: rest
  end.
Proof.
  assert (Hreport : forall m, urls m <> [] ->
            forall r, exists heading rest,
              check_all_urls str_float r m
              = Line heading :: Line (str_mul "=" 80) :: rest).
  { intros m Hm r. unfold check_all_urls.
    destruct (urls m) as [|t l]; [now contradiction Hm|]. eauto. }
  unfold main. destruct (read_args py_int args start) as [st|out]; [|exact I].
  assert (Hm : urls (fst (add_defaults st)) <> []).
  { unfold add_defaults. destruct (urls (monitor st)) as [|t l] eqn:E; simpl.
    - rewrite E. discriminate.
    - rewrite E. discriminate. }
  destruct (add_defaults st) as [m out]. simpl in Hm.
  destruct (mode st); simpl; (split; [exact Hm | now apply Hreport]).
Qed.


(** X14. [-h] ends [main] where it stands: after arguments that were read
    to their end, it prints what these printed and the usage text, and
    exits; the targets named before it are not checked and the arguments
    after it are not looked at. *)
Theorem help_ends_main (args rest : list string) (st : Parse) :
  read_args py_int args start = AtEnd st ->
  main py_int (args ++ "-h" :: rest) = (printed st ++ [Usage], Exit) /\
  main py_int (args ++ "--help" :: rest) = (printed st ++ [Usage], Exit).
Proof.
  intros Hread. unfold main. rewrite !(read_args_app _ _ _ _ Hread). split; reflexivity.
Qed.

(** X15. The interval is taken as [int] reads it, with no check of its
    sign; [monitor_continuously] with an interval for which [time.sleep]
    raises (a negative one) makes one round of checks, prints that it
    waits, and ends with the exception, however many rounds could
    follow. *)
Theorem negative_interval_one_round
  (args : list string) (st : Parse) (v : string) (n : Z)
  (r : Round) (rounds : list Round) :
  read_args py_int args start = AtEnd st ->
  py_int v = Some n ->
  sleep_raises n = true ->
  exists m out,
    main py_int (args ++ ["-i"; v; "-c"]) = (out, MonitorContinuously m n) /\
    snd (monitor_continuously str_float sleep_raises n (r :: rounds) m) = SleepRaised /\
    snd (fst (monitor_continuously str_float sleep_raises n (r :: rounds) m))
    = [Line ("🔍 Starting continuous monitoring (checking every "
             +:+ Py.str_int n +:+ " seconds)");
       Line "Press Ctrl+C to stop";
       Line (str_mul "=" 80)]
      ++ check_all_urls str_float r m
      ++ [Line ("⏳ Waiting " +:+ Py.str_int n +:+ " seconds until next check...")].
Proof.
  intros Hread Hv Hsleep.
  unfold main. rewrite (read_args_app _ _ _ _ Hread). simpl. rewrite Hv. simpl.
  match goal with |- context [add_defaults ?x] => destruct (add_defaults x) as [m out] end.
  exists m, out. split; [reflexivity|].
  unfold monitor_continuously. simpl. rewrite Hsleep. simpl.
  split; reflexivity.
Qed.

Lemma report_length_error (t : Target) (result : CliMonitor.ProbeResult) :
  length (report str_float t result)
  = 3 + (if truthy_str (CliMonitor.res_error result) then 1 else 0).
Proof.
  unfold report. destruct (CliMonitor.res_error result) as [e|]; [|reflexivity].
  destruct (truthy_str (Some e)); reflexivity.
Qed.

Lemma cli_error_iff_down (a : Attempt) :
  truthy_str (CliMonitor.res_error (CliMonitor.check_url a)) = true
  <-> CliMonitor.res_status (CliMonitor.check_url a) = CliMonitor.DOWN.
Proof.
  unfold CliMonitor.check_url.
  destruct (outcome a) as [[c|]|c reason|reason|msg]; simpl; [|easy..].
  destruct (_ && _)%bool; split; intros H; discriminate H.
Qed.

Lemma report_length (t : Target) (r : Round) (i : nat) :
  length (report str_float t (CliMonitor.check_url (round_attempts r i)))
  = 3 + (if decide (is_down r i) then 1 else 0).
Proof.
  rewrite report_length_error.
  destruct (decide (is_down r i)) as [H|H]; unfold is_down in H.
  - apply cli_error_iff_down in H. now rewrite H.
  - destruct (truthy_str _) eqn:E; [|reflexivity].
    apply cli_error_iff_down in E. now contradiction H.
Qed.

Lemma for_urls_length (r : Round) (l : list Target) :
  forall i,
    length (for_urls str_float (round_attempts r) i l)
    = 3 * length l + length (filter (is_down r) (seq i (length l))).
Proof.
  induction l as [|t l IH]; intros i; [reflexivity|].
  cbn [for_urls length seq]. rewrite length_app, report_length, IH, filter_cons.
  destruct (decide (is_down r i)); simpl; lia.
Qed.

(** X16. The report of a round over a registry of [n] targets has two
    heading lines and, for each target, the status line, the line with
    its url and an empty line, and one line more, with the error, for
    exactly the targets whose result is [DOWN]; results that are [UP] or
    [WARNING] print no error line. *)
Theorem check_all_urls_lines (r : Round) (m : Monitor) :
  urls m <> [] ->
  length (check_all_urls str_float r m)
  = 2 + 3 * length (urls m)
    + length (filter (is_down r) (seq 0 (length (urls m)))).
Proof.
  intros Hm. unfold check_all_urls.
  destruct (urls m) as [|t l] eqn:E; [now contradiction Hm|].
  cbn [length app]. rewrite (for_urls_length r (t :: l) 0). simpl. lia.
Qed.

End CliFacts.


Lemma help_ends_main_witness :
  CliMain.main decimal_int (["-u"; "https://a.example"] ++ "-h" :: ["--bogus"])
  = ([CliMain.Line "✅ Added: https://a.example (https://a.example)"; CliMain.Usage],
     CliMain.Exit).
Proof.
  apply (proj1 (help_ends_main decimal_int ["-u"; "https://a.example"] ["--bogus"] _ eq_refl)).
Defined.

Lemma negative_interval_one_round_witness :
  exists m out,
    CliMain.main decimal_int ([] ++ ["-i"; "-5"; "-c"])
    = (out, CliMain.MonitorContinuously m (-5)) /\
    snd (CliMain.monitor_continuously whole_part sleep_negative (-5)
           [mixed_round; mixed_round] m)
    = CliMain.SleepRaised.
Proof.
  destruct (negative_interval_one_round decimal_int whole_part sleep_negative
              [] _ "-5" (-5)%Z mixed_round [mixed_round] eq_refl eq_refl eq_refl)
    as (m & out & Hmain & Hend & _).
  exists m, out. split; [exact Hmain | exact Hend].
Defined.

Lemma check_all_urls_lines_witness :
  length (CliMain.check_all_urls whole_part mixed_round two_cli_targets) = 9.
Proof.
  rewrite (check_all_urls_lines whole_part mixed_round two_cli_targets).
  - vm_compute. reflexivity.
  - discriminate.
Defined.
